(** * Dyness cloud client: signing, response classification and snapshot aggregation

    A shallow embedding of [custom_components/dyness/api.py] together with the
    parts of [__init__.py], [config_flow.py] and [coordinator.py] that build and
    drive the client, followed by the properties established for it.

    Conventions.
    - A Python [str] is a Rocq [string] holding the UTF-8 bytes of the text, so
      [s.encode("utf-8")] is the list of its bytes.  Lone surrogates, which
      have no UTF-8 form, are outside the model.
    - Python [bytes] are [list byte]; 32-bit words are [Z] with the wrap-around
      written out.
    - A JSON number with a fraction or exponent is carried by the text Python
      prints for it ([float.__repr__]).
    - Coroutines are run to completion one after the other, as the source awaits
      each call before the next statement; cancellation is not modelled.
    - The network and the clock are the surroundings [Env] of a run: the
      outcome of the n-th request and the time read when it is signed.  The
      client object, the requests sent and the lines logged are the state.
    - [hashlib], [hmac], [base64], [json.dumps], [str], [repr], [strip],
      [split] and [strftime] are written out, and checked on published test
      vectors below.  Built-in exceptions carry the texts of CPython 3.12;
      month and weekday names are those of the C locale.

    Layout: the library functions, the Python values, the four source files,
    the definitions that the statements use, and then the properties. *)

From Stdlib Require Import ZArith Strings.Byte Ascii String List Lia.
From Stdlib Require Import DecimalString DecimalPos DecimalZ.
From stdpp Require Import base numbers list strings gmap finite vector.

Local Open Scope string_scope.
Local Open Scope list_scope.
Local Open Scope Z_scope.

(** ** Bytes and 32-bit words *)

Definition bytes := list byte.

Definition Z_of_byte (b : byte) : Z := Z.of_N (Byte.to_N b).

Definition byte_of_Z (z : Z) : byte :=
  match Byte.of_N (Z.to_N (z mod 256)) with
  | Some b => b
  | None => x00
  end.

(** [s.encode("utf-8")] *)
Definition encode (s : string) : bytes := list_byte_of_string s.

(** [b.decode("utf-8")], used by the source on ASCII output only *)
Definition decode (b : bytes) : string := string_of_list_byte b.

Definition wrap32 (z : Z) : Z := z mod 2 ^ 32.

Definition rotl32 (x : Z) (n : Z) : Z :=
  wrap32 (Z.lor (Z.shiftl x n) (Z.shiftr x (32 - n))).

Definition not32 (x : Z) : Z := Z.lxor x 4294967295.

(** little- and big-endian readings of at most four bytes *)
Fixpoint le_word (bs : list byte) : Z :=
  match bs with
  | [] => 0
  | b :: r => Z_of_byte b + 256 * le_word r
  end.

Definition be_word (bs : list byte) : Z := le_word (rev bs).

Fixpoint le_bytes (n : nat) (z : Z) : bytes :=
  match n with
  | O => []
  | S k => byte_of_Z z :: le_bytes k (Z.shiftr z 8)
  end.

Definition be_bytes (n : nat) (z : Z) : bytes := rev (le_bytes n z).

(** split a byte string into consecutive chunks of [k + 1] bytes *)
Fixpoint chunks_aux (k : nat) (cur : list byte) (left : nat) (bs : list byte)
  : list (list byte) :=
  match bs with
  | [] => match cur with [] => [] | _ => [rev cur] end
  | b :: r =>
      match left with
      | O => rev (b :: cur) :: chunks_aux k [] k r
      | S l => chunks_aux k (b :: cur) l r
      end
  end.

Definition chunks (size : nat) (bs : list byte) : list (list byte) :=
  chunks_aux (Nat.pred size) [] (Nat.pred size) bs.

(** ** hashlib: MD5 (RFC 1321) and SHA-1 (FIPS 180) *)

Module Hashlib.

(** the message followed by 0x80 and zeros up to 56 modulo 64; the caller
    appends the 64-bit length *)
Definition pad_zeros (len : nat) : nat :=
  ((64 + 55 - (len mod 64)) mod 64)%nat.

Definition md_pad (len_bytes : nat -> Z -> bytes) (msg : bytes) : bytes :=
  msg ++ x80 :: repeat x00 (pad_zeros (length msg))
      ++ len_bytes 8%nat (8 * Z.of_nat (length msg)).

Definition md5_K : list Z :=
  [ 0xd76aa478; 0xe8c7b756; 0x242070db; 0xc1bdceee;
    0xf57c0faf; 0x4787c62a; 0xa8304613; 0xfd469501;
    0x698098d8; 0x8b44f7af; 0xffff5bb1; 0x895cd7be;
    0x6b901122; 0xfd987193; 0xa679438e; 0x49b40821;
    0xf61e2562; 0xc040b340; 0x265e5a51; 0xe9b6c7aa;
    0xd62f105d; 0x02441453; 0xd8a1e681; 0xe7d3fbc8;
    0x21e1cde6; 0xc33707d6; 0xf4d50d87; 0x455a14ed;
    0xa9e3e905; 0xfcefa3f8; 0x676f02d9; 0x8d2a4c8a;
    0xfffa3942; 0x8771f681; 0x6d9d6122; 0xfde5380c;
    0xa4beea44; 0x4bdecfa9; 0xf6bb4b60; 0xbebfbc70;
    0x289b7ec6; 0xeaa127fa; 0xd4ef3085; 0x04881d05;
    0xd9d4d039; 0xe6db99e5; 0x1fa27cf8; 0xc4ac5665;
    0xf4292244; 0x432aff97; 0xab9423a7; 0xfc93a039;
    0x655b59c3; 0x8f0ccc92; 0xffeff47d; 0x85845dd1;
    0x6fa87e4f; 0xfe2ce6e0; 0xa3014314; 0x4e0811a1;
    0xf7537e82; 0xbd3af235; 0x2ad7d2bb; 0xeb86d391 ].

Definition md5_S : list Z :=
  [ 7; 12; 17; 22; 7; 12; 17; 22; 7; 12; 17; 22; 7; 12; 17; 22;
    5; 9; 14; 20; 5; 9; 14; 20; 5; 9; 14; 20; 5; 9; 14; 20;
    4; 11; 16; 23; 4; 11; 16; 23; 4; 11; 16; 23; 4; 11; 16; 23;
    6; 10; 15; 21; 6; 10; 15; 21; 6; 10; 15; 21; 6; 10; 15; 21 ].

Record md5_state := Md5 { md5_a : Z; md5_b : Z; md5_c : Z; md5_d : Z }.

Definition md5_init : md5_state :=
  Md5 0x67452301 0xefcdab89 0x98badcfe 0x10325476.

Definition md5_round (m : list Z) (st : md5_state) (i : nat) : md5_state :=
  let '(Md5 a b c d) := st in
  let zi := Z.of_nat i in
  let '(f, g) :=
    if zi <? 16 then (Z.lor (Z.land b c) (Z.land (not32 b) d), zi)
    else if zi <? 32 then
      (Z.lor (Z.land d b) (Z.land (not32 d) c), (5 * zi + 1) mod 16)
    else if zi <? 48 then (Z.lxor (Z.lxor b c) d, (3 * zi + 5) mod 16)
    else (Z.lxor c (Z.lor b (not32 d)), (7 * zi) mod 16) in
  let f' := wrap32 (f + a + nth i md5_K 0 + nth (Z.to_nat g) m 0) in
  Md5 d (wrap32 (b + rotl32 f' (nth i md5_S 0))) b c.

Definition md5_block (st : md5_state) (block : list byte) : md5_state :=
  let m := map le_word (chunks 4 block) in
  let '(Md5 a b c d) := fold_left (md5_round m) (seq 0 64) st in
  Md5 (wrap32 (md5_a st + a)) (wrap32 (md5_b st + b))
      (wrap32 (md5_c st + c)) (wrap32 (md5_d st + d)).

(** [hashlib.md5(msg).digest()] *)
Definition md5 (msg : bytes) : bytes :=
  let '(Md5 a b c d) :=
    fold_left md5_block (chunks 64 (md_pad le_bytes msg)) md5_init in
  le_bytes 4 a ++ le_bytes 4 b ++ le_bytes 4 c ++ le_bytes 4 d.

Record sha1_state :=
  Sha1 { sha1_a : Z; sha1_b : Z; sha1_c : Z; sha1_d : Z; sha1_e : Z }.

Definition sha1_init : sha1_state :=
  Sha1 0x67452301 0xEFCDAB89 0x98BADCFE 0x10325476 0xC3D2E1F0.

(** the message schedule, most recent word first *)
Fixpoint sha1_extend (n : nat) (w : list Z) : list Z :=
  match n with
  | O => w
  | S k =>
      let x := Z.lxor (Z.lxor (nth 2 w 0) (nth 7 w 0))
                      (Z.lxor (nth 13 w 0) (nth 15 w 0)) in
      sha1_extend k (rotl32 x 1 :: w)
  end.

Definition sha1_round (st : sha1_state) (iw : nat * Z) : sha1_state :=
  let '(Sha1 a b c d e) := st in
  let '(i, w) := iw in
  let zi := Z.of_nat i in
  let '(f, k) :=
    if zi <? 20 then (Z.lor (Z.land b c) (Z.land (not32 b) d), 0x5A827999)
    else if zi <? 40 then (Z.lxor (Z.lxor b c) d, 0x6ED9EBA1)
    else if zi <? 60 then
      (Z.lor (Z.lor (Z.land b c) (Z.land b d)) (Z.land c d), 0x8F1BBCDC)
    else (Z.lxor (Z.lxor b c) d, 0xCA62C1D6) in
  Sha1 (wrap32 (rotl32 a 5 + f + e + k + w)) a (rotl32 b 30) c d.

Definition sha1_block (st : sha1_state) (block : list byte) : sha1_state :=
  let w := rev (sha1_extend 64 (rev (map be_word (chunks 4 block)))) in
  let '(Sha1 a b c d e) := fold_left sha1_round (combine (seq 0 80) w) st in
  Sha1 (wrap32 (sha1_a st + a)) (wrap32 (sha1_b st + b))
       (wrap32 (sha1_c st + c)) (wrap32 (sha1_d st + d))
       (wrap32 (sha1_e st + e)).

(** [hashlib.sha1(msg).digest()] *)
Definition sha1 (msg : bytes) : bytes :=
  let '(Sha1 a b c d e) :=
    fold_left sha1_block (chunks 64 (md_pad be_bytes msg)) sha1_init in
  be_bytes 4 a ++ be_bytes 4 b ++ be_bytes 4 c ++ be_bytes 4 d
    ++ be_bytes 4 e.

Definition hexdigit (z : Z) : ascii :=
  ascii_of_nat (Z.to_nat (if z <? 10 then 48 + z else 87 + z)).

(** [.hexdigest()], the form the client does not use *)
Fixpoint hex (bs : bytes) : string :=
  match bs with
  | [] => ""
  | b :: r =>
      String (hexdigit (Z_of_byte b / 16))
             (String (hexdigit (Z_of_byte b mod 16)) (hex r))
  end.

End Hashlib.

(** ** hmac (RFC 2104) over SHA-1 *)

Module Hmac.

Definition block_size : nat := 64.

Definition xor_pad (pad : Z) (key : bytes) : bytes :=
  map (fun b => byte_of_Z (Z.lxor (Z_of_byte b) pad)) key.

(** [hmac.new(key, msg, hashlib.sha1).digest()] *)
Definition hmac_sha1 (key msg : bytes) : bytes :=
  let k := if (block_size <? length key)%nat then Hashlib.sha1 key else key in
  let k := k ++ repeat x00 (block_size - length k) in
  Hashlib.sha1 (xor_pad 0x5c k ++ Hashlib.sha1 (xor_pad 0x36 k ++ msg)).

End Hmac.

(** ** base64.b64encode *)

Module Base64.

Definition alphabet : string :=
  "ABCDEFGHIJKLMNOPQRSTUVWXYZabcdefghijklmnopqrstuvwxyz0123456789+/".

Definition sextet (z : Z) : ascii :=
  match String.get (Z.to_nat (z mod 64)) alphabet with
  | Some c => c
  | None => "="%char
  end.

Fixpoint b64chars (bs : bytes) : string :=
  match bs with
  | [] => ""
  | [a] =>
      let n := Z_of_byte a * 65536 in
      String (sextet (n / 262144)) (String (sextet (n / 4096)) "==")
  | [a; b] =>
      let n := Z_of_byte a * 65536 + Z_of_byte b * 256 in
      String (sextet (n / 262144))
        (String (sextet (n / 4096)) (String (sextet (n / 64)) "="))
  | a :: b :: c :: r =>
      let n := Z_of_byte a * 65536 + Z_of_byte b * 256 + Z_of_byte c in
      String (sextet (n / 262144))
        (String (sextet (n / 4096))
           (String (sextet (n / 64)) (String (sextet n) (b64chars r))))
  end.

(** [base64.b64encode(bs)], as ASCII bytes *)
Definition b64encode (bs : bytes) : bytes := encode (b64chars bs).

End Base64.

(** ** Python text *)

Module Text.

Definition chr (n : Z) : ascii := ascii_of_nat (Z.to_nat n).
Definition ord (c : ascii) : Z := Z.of_nat (nat_of_ascii c).

Definition str1 (c : ascii) : string := String c "".

(** the characters written "\n" and "\t" in Python source *)
Definition LF : string := str1 (chr 10).

(** [str(n)] for an [int] *)
Definition str_of_Z (z : Z) : string := NilZero.string_of_int (Z.to_int z).

Fixpoint hex_digits (n : nat) (z : Z) : string :=
  match n with
  | O => ""
  | S k => hex_digits k (z / 16) +:+ str1 (Hashlib.hexdigit (z mod 16))
  end.

Definition contains (c : ascii) (s : string) : bool :=
  existsb (Ascii.eqb c) (list_ascii_of_string s).

(** [sep.join(parts)] *)
Definition join (sep : string) (parts : list string) : string :=
  String.concat sep parts.

(** [s.split(",")]: the pieces between the separator characters, in order;
    an empty text gives one empty piece *)
Fixpoint split_rev (sep : ascii) (cur : string) (s : string) : list string :=
  match s with
  | "" => [cur]
  | String c r =>
      if Ascii.eqb c sep then cur :: split_rev sep "" r
      else split_rev sep (cur +:+ str1 c) r
  end.

Definition split (sep : ascii) (s : string) : list string :=
  split_rev sep "" s.

(** The characters [str.strip()] removes: those for which [str.isspace()]
    holds.  One-byte ones first, then the UTF-8 forms of U+0085, U+00A0,
    U+1680, U+2000..U+200A, U+2028, U+2029, U+202F, U+205F and U+3000. *)
Definition is_space1 (c : ascii) : bool :=
  let n := ord c in
  ((9 <=? n) && (n <=? 13)) || ((28 <=? n) && (n <=? 32)).

Definition space_seqs : list (list Z) :=
  [ [0xC2; 0x85]; [0xC2; 0xA0]; [0xE1; 0x9A; 0x80];
    [0xE2; 0x80; 0x80]; [0xE2; 0x80; 0x81]; [0xE2; 0x80; 0x82];
    [0xE2; 0x80; 0x83]; [0xE2; 0x80; 0x84]; [0xE2; 0x80; 0x85];
    [0xE2; 0x80; 0x86]; [0xE2; 0x80; 0x87]; [0xE2; 0x80; 0x88];
    [0xE2; 0x80; 0x89]; [0xE2; 0x80; 0x8A]; [0xE2; 0x80; 0xA8];
    [0xE2; 0x80; 0xA9]; [0xE2; 0x80; 0xAF]; [0xE2; 0x81; 0x9F];
    [0xE3; 0x80; 0x80] ].

Definition Zs_eqb (a b : list Z) : bool :=
  (length a =? length b)%nat && forallb (fun '(x, y) => x =? y) (combine a b).

(** drop leading white space; [seqs] lists the multi-byte forms as they are
    met from this end of the text *)
Fixpoint lstrip_with (seqs : list (list Z)) (s : list Z) : list Z :=
  match s with
  | [] => []
  | a :: r =>
      if is_space1 (chr a) then lstrip_with seqs r
      else
        match r with
        | b :: r2 =>
            if existsb (Zs_eqb [a; b]) seqs then lstrip_with seqs r2
            else
              match r2 with
              | c :: r3 =>
                  if existsb (Zs_eqb [a; b; c]) seqs
                  then lstrip_with seqs r3 else s
              | [] => s
              end
        | [] => s
        end
  end.

Definition codes (s : string) : list Z := map ord (list_ascii_of_string s).
Definition of_codes (l : list Z) : string :=
  string_of_list_ascii (map chr l).

(** [s.strip()] *)
Definition strip (s : string) : string :=
  let l := lstrip_with space_seqs (codes s) in
  of_codes (rev (lstrip_with (map (@rev Z) space_seqs) (rev l))).

(** the code points of a UTF-8 text; a byte that starts no well-formed
    sequence is passed through as it is *)
Fixpoint utf8_points (s : list Z) : list Z :=
  match s with
  | [] => []
  | a :: r =>
      let cont x := (128 <=? x) && (x <? 192) in
      match r with
      | b :: r2 =>
          if (192 <=? a) && (a <? 224) && cont b
          then ((a mod 32) * 64 + b mod 64) :: utf8_points r2
          else
            match r2 with
            | c :: r3 =>
                if (224 <=? a) && (a <? 240) && cont b && cont c
                then ((a mod 16) * 4096 + (b mod 64) * 64 + c mod 64)
                       :: utf8_points r3
                else
                  match r3 with
                  | d :: r4 =>
                      if (240 <=? a) && (a <? 248) && cont b && cont c
                         && cont d
                      then ((a mod 8) * 262144 + (b mod 64) * 4096
                            + (c mod 64) * 64 + d mod 64) :: utf8_points r4
                      else a :: utf8_points r
                  | [] => a :: utf8_points r
                  end
            | [] => a :: utf8_points r
            end
      | [] => [a]
      end
  end.

(** the characters of a text, each as a text of its own (iteration over a
    [str]) *)
Fixpoint chars_aux (cur : list Z) (s : list Z) : list string :=
  match s with
  | [] => match cur with [] => [] | _ => [of_codes (rev cur)] end
  | a :: r =>
      if (128 <=? a) && (a <? 192) then chars_aux (a :: cur) r
      else
        match cur with
        | [] => chars_aux [a] r
        | _ => of_codes (rev cur) :: chars_aux [a] r
        end
  end.

Definition chars (s : string) : list string := chars_aux [] (codes s).

(** [repr(s)] for a [str].  Bytes above 0x7f are copied: Python also copies
    every printable non-ASCII character and escapes the others. *)
Definition repr_char (quote : ascii) (c : ascii) : string :=
  let n := ord c in
  if Ascii.eqb c quote || (n =? 92) then String (chr 92) (str1 c)
  else if n =? 9 then String (chr 92) "t"
  else if n =? 10 then String (chr 92) "n"
  else if n =? 13 then String (chr 92) "r"
  else if (n <? 32) || (n =? 127) then String (chr 92) ("x" +:+ hex_digits 2 n)
  else str1 c.

Definition repr (s : string) : string :=
  let quote :=
    if contains "'"%char s && negb (contains (chr 34) s)
    then chr 34 else "'"%char in
  str1 quote
    +:+ String.concat "" (map (repr_char quote) (list_ascii_of_string s))
    +:+ str1 quote.

(** a string as a JSON literal under [ensure_ascii=True] *)
Definition json_escape_point (n : Z) : string :=
  let u x := String (chr 92) ("u" +:+ hex_digits 4 x) in
  if n =? 34 then String (chr 92) (str1 (chr 34))
  else if n =? 92 then String (chr 92) (str1 (chr 92))
  else if n =? 10 then String (chr 92) "n"
  else if n =? 13 then String (chr 92) "r"
  else if n =? 9 then String (chr 92) "t"
  else if n =? 8 then String (chr 92) "b"
  else if n =? 12 then String (chr 92) "f"
  else if (32 <=? n) && (n <=? 126) then str1 (chr n)
  else if n <? 65536 then u n
  else u (55296 + (n - 65536) / 1024) +:+ u (56320 + (n - 65536) mod 1024).

Definition json_string (s : string) : string :=
  str1 (chr 34)
    +:+ String.concat "" (map json_escape_point (utf8_points (codes s)))
    +:+ str1 (chr 34).

(** [needle in s] *)
Definition is_infix (needle s : string) : bool :=
  match String.index 0 needle s with
  | Some _ => true
  | None => false
  end.

End Text.

(** ** Python values and exceptions *)

Set Warnings "-register-all".

(** The exception classes that occur: the client's own, the coordinator's, the
    built-in ones raised by the post-processing of a payload, and the three
    kinds of transport fault. *)
Inductive exc_class :=
| DynessAPIError | UpdateFailed
| AttributeError | KeyError | TypeError
| ClientError | TimeoutError | JSONDecodeError.

(** An exception object: its class, [str(e)] and [e.__cause__]. *)
Inductive exn := Exn (cls : exc_class) (text : string) (cause : option exn).

Definition exn_class (e : exn) : exc_class := let '(Exn c _ _) := e in c.
Definition exn_str (e : exn) : string := let '(Exn _ t _) := e in t.
Definition exn_cause (e : exn) : option exn := let '(Exn _ _ c) := e in c.

Definition exc_class_eqb (a b : exc_class) : bool :=
  match a, b with
  | DynessAPIError, DynessAPIError | UpdateFailed, UpdateFailed
  | AttributeError, AttributeError | KeyError, KeyError
  | TypeError, TypeError | ClientError, ClientError
  | TimeoutError, TimeoutError | JSONDecodeError, JSONDecodeError => true
  | _, _ => false
  end.

(** [isinstance(e, DynessAPIError)] *)
Definition is_api_error (e : exn) : bool :=
  exc_class_eqb (exn_class e) DynessAPIError.

(** The outcome of evaluating an expression. *)
Inductive result (A : Type) :=
| Ok (a : A)
| Raise (e : exn).
Arguments Ok {A} a.
Arguments Raise {A} e.

(** The hashable values a JSON document can yield: [None], [bool], [int],
    [float] (by its printed text) and [str]. *)
Inductive pykey :=
| KNone
| KBool (b : bool)
| KInt (z : Z)
| KFloat (r : string)
| KStr (s : string).

(** A value obtained from JSON, or built from such values.  A [dict] keeps its
    items in insertion order. *)
Inductive pyval :=
| PNone
| PBool (b : bool)
| PInt (z : Z)
| PFloat (r : string)
| PStr (s : string)
| PList (xs : list pyval)
| PDict (items : list (pykey * pyval)).

Module Py.

Definition type_name (v : pyval) : string :=
  match v with
  | PNone => "NoneType"
  | PBool _ => "bool"
  | PInt _ => "int"
  | PFloat _ => "float"
  | PStr _ => "str"
  | PList _ => "list"
  | PDict _ => "dict"
  end.

Definition of_key (k : pykey) : pyval :=
  match k with
  | KNone => PNone
  | KBool b => PBool b
  | KInt z => PInt z
  | KFloat r => PFloat r
  | KStr s => PStr s
  end.

(** [hash(v)] succeeds exactly on the values that can be dictionary keys *)
Definition to_key (v : pyval) : result pykey :=
  match v with
  | PNone => Ok KNone
  | PBool b => Ok (KBool b)
  | PInt z => Ok (KInt z)
  | PFloat r => Ok (KFloat r)
  | PStr s => Ok (KStr s)
  | PList _ | PDict _ =>
      Raise (Exn TypeError
               ("unhashable type: '" +:+ type_name v +:+ "'") None)
  end.

(** Key equality, [a == b] on hashable values: numbers compare by value
    across [bool], [int] and [float].  A float is matched with the integer
    whose text followed by [.0] it prints as, which is exact below 1e16;
    beyond that a float and an int of equal value are kept apart here. *)
Definition float_norm (r : string) : string :=
  if String.eqb r "-0.0" then "0.0" else r.

Definition key_eqb (a b : pykey) : bool :=
  let num k :=
    match k with
    | KBool true => Some (inl 1)
    | KBool false => Some (inl 0)
    | KInt z => Some (inl z)
    | KFloat r => Some (inr (float_norm r))
    | _ => None
    end in
  match a, b with
  | KNone, KNone => true
  | KStr s, KStr t => String.eqb s t
  | _, _ =>
      match num a, num b with
      | Some (inl x), Some (inl y) => x =? y
      | Some (inr r), Some (inr t) => String.eqb r t
      | Some (inl x), Some (inr r) | Some (inr r), Some (inl x) =>
          String.eqb r (Text.str_of_Z x +:+ ".0")
      | _, _ => false
      end
  end.

(** [d.get(k)] on the items of a dict *)
Fixpoint lookup (k : pykey) (items : list (pykey * pyval)) : option pyval :=
  match items with
  | [] => None
  | (k', v) :: r => if key_eqb k' k then Some v else lookup k r
  end.

(** [d[k] = v]: an existing key keeps its key object and its place *)
Fixpoint store (k : pykey) (v : pyval) (items : list (pykey * pyval))
  : list (pykey * pyval) :=
  match items with
  | [] => [(k, v)]
  | (k', v') :: r =>
      if key_eqb k' k then (k', v) :: r else (k', v') :: store k v r
  end.

(** truth value *)
Definition truthy (v : pyval) : bool :=
  match v with
  | PNone => false
  | PBool b => b
  | PInt z => negb (z =? 0)
  | PFloat r => negb (String.eqb (float_norm r) "0.0")
  | PStr s => negb (String.eqb s "")
  | PList xs => match xs with [] => false | _ => true end
  | PDict items => match items with [] => false | _ => true end
  end.

(** [a or b] *)
Definition or_ (a b : pyval) : pyval := if truthy a then a else b.

Definition key_repr (k : pykey) : string :=
  match k with
  | KNone => "None"
  | KBool true => "True"
  | KBool false => "False"
  | KInt z => Text.str_of_Z z
  | KFloat r => r
  | KStr s => Text.repr s
  end.

(** [repr(v)] *)
Fixpoint repr (v : pyval) : string :=
  match v with
  | PNone => "None"
  | PBool true => "True"
  | PBool false => "False"
  | PInt z => Text.str_of_Z z
  | PFloat r => r
  | PStr s => Text.repr s
  | PList xs => "[" +:+ Text.join ", " (map repr xs) +:+ "]"
  | PDict items =>
      "{" +:+ Text.join ", "
                (map (fun '(k, x) => key_repr k +:+ ": " +:+ repr x) items)
          +:+ "}"
  end.

(** [str(v)], also what an f-string field prints *)
Definition str (v : pyval) : string :=
  match v with
  | PStr s => s
  | _ => repr v
  end.

Definition no_attribute (v : pyval) (name : string) : exn :=
  Exn AttributeError
    ("'" +:+ type_name v +:+ "' object has no attribute '" +:+ name +:+ "'")
    None.

(** [v.get(name, default)]: only a dict has the method *)
Definition get (v : pyval) (name : string) (default : pyval) : result pyval :=
  match v with
  | PDict items =>
      Ok (match lookup (KStr name) items with
          | Some x => x
          | None => default
          end)
  | _ => Raise (no_attribute v "get")
  end.

(** [v[name]] with a [str] subscript (messages as CPython 3.12 words them) *)
Definition getitem (v : pyval) (name : string) : result pyval :=
  match v with
  | PDict items =>
      match lookup (KStr name) items with
      | Some x => Ok x
      | None => Raise (Exn KeyError (Text.repr name) None)
      end
  | PStr _ =>
      Raise (Exn TypeError "string indices must be integers, not 'str'" None)
  | PList _ =>
      Raise (Exn TypeError
               "list indices must be integers or slices, not str" None)
  | _ =>
      Raise (Exn TypeError
               ("'" +:+ type_name v +:+ "' object is not subscriptable") None)
  end.

(** the values a [for] clause draws from [v] *)
Definition iter (v : pyval) : result (list pyval) :=
  match v with
  | PList xs => Ok xs
  | PDict items => Ok (map (fun kv => of_key (fst kv)) items)
  | PStr s => Ok (map PStr (Text.chars s))
  | _ =>
      Raise (Exn TypeError
               ("'" +:+ type_name v +:+ "' object is not iterable") None)
  end.

End Py.

(** ** json.dumps *)

Module Json.

Definition float_text (r : string) : string :=
  if String.eqb r "nan" then "NaN"
  else if String.eqb r "inf" then "Infinity"
  else if String.eqb r "-inf" then "-Infinity"
  else r.

(** a dictionary key as the encoder writes it, before quoting *)
Definition key_text (k : pykey) : string :=
  match k with
  | KNone => "null"
  | KBool true => "true"
  | KBool false => "false"
  | KInt z => Text.str_of_Z z
  | KFloat r => float_text r
  | KStr s => s
  end.

(** [json.dumps(v, separators=(item_sep, key_sep))] *)
Fixpoint dumps_with (item_sep key_sep : string) (v : pyval) : string :=
  match v with
  | PNone => "null"
  | PBool true => "true"
  | PBool false => "false"
  | PInt z => Text.str_of_Z z
  | PFloat r => float_text r
  | PStr s => Text.json_string s
  | PList xs =>
      "[" +:+ Text.join item_sep (map (dumps_with item_sep key_sep) xs)
          +:+ "]"
  | PDict items =>
      "{" +:+ Text.join item_sep
                (map (fun '(k, x) =>
                        Text.json_string (key_text k) +:+ key_sep
                          +:+ dumps_with item_sep key_sep x) items)
          +:+ "}"
  end.

(** [json.dumps(v)], with the default separators *)
Definition dumps (v : pyval) : string := dumps_with ", " ": " v.

End Json.

(** ** Results and the client's effects *)

Definition rbind {A B} (m : result A) (f : A -> result B) : result B :=
  match m with
  | Ok a => f a
  | Raise e => Raise e
  end.

Notation "'let?' x ':=' m 'in' k" := (rbind m (fun x => k))
  (at level 10, x name, m at level 100, k at level 200, only parsing).

(** ** datetime: [strftime("%a, %d %b %Y %H:%M:%S GMT")] of a UTC instant *)

Module Datetime.

Record datetime := {
  year : Z; month : Z; day : Z;
  hour : Z; minute : Z; second : Z;
  weekday : Z  (* Monday is 0 *)
}.

(** the UTC calendar reading of a POSIX time, in whole seconds *)
Definition utcfromtimestamp (t : Z) : datetime :=
  let days := t / 86400 in
  let secs := t mod 86400 in
  let z := days + 719468 in
  let era := z / 146097 in
  let doe := z - era * 146097 in
  let yoe := (doe - doe / 1460 + doe / 36524 - doe / 146096) / 365 in
  let doy := doe - (365 * yoe + yoe / 4 - yoe / 100) in
  let mp := (5 * doy + 2) / 153 in
  let m := if mp <? 10 then mp + 3 else mp - 9 in
  {| year := yoe + era * 400 + (if m <=? 2 then 1 else 0);
     month := m;
     day := doy - (153 * mp + 2) / 5 + 1;
     hour := secs / 3600;
     minute := (secs mod 3600) / 60;
     second := secs mod 60;
     weekday := (days + 3) mod 7 |}.

Definition two (z : Z) : string :=
  (if z <? 10 then "0" else "") +:+ Text.str_of_Z z.

Definition day_abbr (d : Z) : string :=
  nth (Z.to_nat d) ["Mon"; "Tue"; "Wed"; "Thu"; "Fri"; "Sat"; "Sun"] "".

Definition month_abbr (m : Z) : string :=
  nth (Z.to_nat (m - 1))
    ["Jan"; "Feb"; "Mar"; "Apr"; "May"; "Jun";
     "Jul"; "Aug"; "Sep"; "Oct"; "Nov"; "Dec"] "".

(** the format of the [Date] header, for years of four digits *)
Definition strftime_http (d : datetime) : string :=
  day_abbr (weekday d) +:+ ", " +:+ two (day d) +:+ " "
    +:+ month_abbr (month d) +:+ " " +:+ Text.str_of_Z (year d) +:+ " "
    +:+ two (hour d) +:+ ":" +:+ two (minute d) +:+ ":" +:+ two (second d)
    +:+ " GMT".

End Datetime.

(** ** api.py *)

Definition BASE_URLS : gmap string string :=
  {[ "global" := "https://open-api.dyness.com/openapi/ems-device";
     "apac" := "https://apacopenapi.dyness.com/openapi/ems-device" ]}.

(** the value of [BASE_URLS["global"]] *)
Definition BASE_URL_global : string :=
  default "" (BASE_URLS !! "global").

(** The attributes of a [DynessAPI] object. *)
Record DynessAPI := {
  api_id : string;
  api_secret : string;
  sn_bms : string;
  sn_dongle : string;
  sn_module : string;
  base_url : string
}.

(** The constructor, whose last two parameters default to the empty text and
    to global; [None] stands for an argument the caller leaves out. *)
Definition __init__ (api_id api_secret sn_bms sn_dongle : string)
    (sn_module region : option string) : DynessAPI :=
  let sn_module := default "" sn_module in
  let region := default "global" region in
  {| api_id := api_id;
     api_secret := api_secret;
     sn_bms := sn_bms;
     sn_dongle := sn_dongle;
     sn_module := sn_module;
     base_url := default BASE_URL_global (BASE_URLS !! region) |}.

(** [now] is the reading of the clock, in seconds since the epoch *)
Definition _gmt_time (now : Z) : string :=
  Datetime.strftime_http (Datetime.utcfromtimestamp now).

Definition _md5 (body : string) : string :=
  decode (Base64.b64encode (Hashlib.md5 (encode body))).

Definition _sign (self : DynessAPI) (method md5 content_type date path : string)
  : string :=
  let sts :=
    method +:+ Text.LF +:+ md5 +:+ Text.LF +:+ content_type +:+ Text.LF
      +:+ date +:+ Text.LF +:+ path in
  let raw := Hmac.hmac_sha1 (encode (api_secret self)) (encode sts) in
  decode (Base64.b64encode raw).

Definition _headers (self : DynessAPI) (now : Z) (path body_str : string)
  : gmap string string :=
  let md5 := _md5 body_str in
  let date := _gmt_time now in
  let sig := _sign self "POST" md5 "application/json" date path in
  {[ "Content-Type" := "application/json;charset=UTF-8";
     "Content-MD5" := md5;
     "Date" := date;
     "Authorization" := "API " +:+ api_id self +:+ ":" +:+ sig ]}.

(** What [session.post] is called with. *)
Record Request := {
  req_url : string;
  req_headers : gmap string string;
  req_data : string;
  req_ssl : bool;
  req_timeout : Z
}.

(** A fault of the transport or of the decoding of the response body, with
    the text the exception prints. *)
Inductive transport_fault :=
| ConnectionFault (text : string)
| Timeout (text : string)
| MalformedJSON (text : string).

Definition fault_exn (f : transport_fault) : exn :=
  match f with
  | ConnectionFault t => Exn ClientError t None
  | Timeout t => Exn TimeoutError t None
  | MalformedJSON t => Exn JSONDecodeError t None
  end.

(** What [session.post(...)] followed by [resp.json(content_type=None)] comes
    to: an exception, or the parsed body. *)
Inductive http_outcome :=
| Fault (f : transport_fault)
| Body (data : pyval).

(** The surroundings of a run: the outcome of the [n]-th request made and the
    clock reading when its headers are built, [n] counting from 0. *)
Record Env := {
  net : nat -> http_outcome;
  clock : nat -> Z
}.

Inductive log_level := DEBUG | WARNING.

(** The state a method runs in: the client object, the requests sent so far
    and the lines logged so far. *)
Record World := {
  self : DynessAPI;
  sent : list Request;
  logged : list (log_level * string)
}.

Definition M (A : Type) : Type := World -> result A * World.

Definition ret {A} (a : A) : M A := fun w => (Ok a, w).

Definition bind {A B} (m : M A) (f : A -> M B) : M B :=
  fun w =>
    match m w with
    | (Ok a, w') => f a w'
    | (Raise e, w') => (Raise e, w')
    end.

Notation "'let*' x ':=' m 'in' k" := (bind m (fun x => k))
  (at level 10, x name, m at level 100, k at level 200, only parsing).

Definition raise {A} (e : exn) : M A := fun w => (Raise e, w).

Definition lift {A} (r : result A) : M A := fun w => (r, w).

Definition get_self : M DynessAPI := fun w => (Ok (self w), w).

Definition calls_made : M nat := fun w => (Ok (length (sent w)), w).

(** the object [me] after [me.sn_module = s] *)
Definition with_sn_module (s : string) (me : DynessAPI) : DynessAPI :=
  {| api_id := api_id me; api_secret := api_secret me;
     sn_bms := sn_bms me; sn_dongle := sn_dongle me;
     sn_module := s; base_url := base_url me |}.

(** [self.sn_module = s] *)
Definition set_sn_module (s : string) : M unit :=
  fun w =>
    (Ok tt,
     {| self := with_sn_module s (self w); sent := sent w;
        logged := logged w |}).

(** [_LOGGER.warning] and [_LOGGER.debug] *)
Definition log (level : log_level) (line : string) : M unit :=
  fun w =>
    (Ok tt,
     {| self := self w; sent := sent w;
        logged := logged w ++ [(level, line)] |}).

(** [try: body / except Exception as err: handler(err)] *)
Definition try_except {A} (body : M A) (handler : exn -> M A) : M A :=
  fun w =>
    match body w with
    | (Raise e, w') => handler e w'
    | r => r
    end.

(** [try: body / except DynessAPIError as e: handler(e)] *)
Definition try_except_api {A} (body : M A) (handler : exn -> M A) : M A :=
  fun w =>
    match body w with
    | (Raise e, w') => if is_api_error e then handler e w' else (Raise e, w')
    | r => r
    end.

(** the request goes out and its outcome comes back *)
Definition session_post (env : Env) (req : Request) : M pyval :=
  fun w =>
    let w' := {| self := self w; sent := sent w ++ [req];
                 logged := logged w |} in
    match net env (length (sent w)) with
    | Fault f => (Raise (fault_exn f), w')
    | Body data => (Ok data, w')
    end.

(** [x in ("0", "200")] *)
Definition success_codes : list string := ["0"; "200"].

Definition _post (env : Env) (path : string) (body : pyval) : M pyval :=
  let* me := get_self in
  let* n := calls_made in
  let body_str := Json.dumps_with "," ":" body in
  let headers := _headers me (clock env n) path body_str in
  let url := base_url me +:+ path in
  try_except
    (let* data := session_post env
               {| req_url := url; req_headers := headers;
                  req_data := body_str; req_ssl := false;
                  req_timeout := 20 |} in
     let* code := lift (Py.get data "code" PNone) in
     if negb (existsb (String.eqb (Py.str code)) success_codes) then
       let* code' := lift (Py.get data "code" PNone) in
       let* info := lift (Py.get data "info" PNone) in
       raise (Exn DynessAPIError
                (path +:+ " → code=" +:+ Py.str code' +:+ " | "
                   +:+ Py.str info) None)
     else ret data)
    (fun err =>
       if is_api_error err then raise err
       else raise (Exn DynessAPIError
                     ("Request to " +:+ path +:+ " failed: " +:+ exn_str err)
                     (Some err))).

Definition path_detail : string := "/v1/device/household/storage/detail".
Definition path_power : string := "/v1/device/getLastPowerDataBySn".
Definition path_realtime : string := "/v1/device/realTime/data".

(** the literal [{"deviceSn": sn}] *)
Definition device_body (sn : string) : pyval :=
  PDict [(KStr "deviceSn", PStr sn)].

(** Verify credentials. Returns device info dict on success. *)
Definition test_connection (env : Env) : M pyval :=
  let* me := get_self in
  let* r := _post env path_detail (device_body (sn_bms me)) in
  lift (Py.get r "data" (PDict [])).

(** [[x for x in xs if x.get("realTimePower") is not None]] *)
Fixpoint power_records (xs : list pyval) : result (list pyval) :=
  match xs with
  | [] => Ok []
  | x :: rest =>
      let? p := Py.get x "realTimePower" PNone in
      let? records := power_records rest in
      Ok (match p with
          | PNone => records
          | _ => x :: records
          end)
  end.

(** [{p["pointId"]: p["pointValue"] for p in ps}], started from [acc] *)
Fixpoint points_dict (ps : list pyval) (acc : list (pykey * pyval))
  : result (list (pykey * pyval)) :=
  match ps with
  | [] => Ok acc
  | p :: rest =>
      let? k := Py.getitem p "pointId" in
      let? v := Py.getitem p "pointValue" in
      let? key := Py.to_key k in
      points_dict rest (Py.store key v acc)
  end.

(** [sub.split(",")]: a method of [str] only *)
Definition split_comma (sub : pyval) : result (list string) :=
  match sub with
  | PStr s => Ok (Text.split ","%char s)
  | _ => Raise (Py.no_attribute sub "split")
  end.

(** [[s.strip() for s in pieces if s.strip()]] *)
Definition stripped_nonempty (pieces : list string) : list string :=
  map Text.strip
    (List.filter (fun s => Py.truthy (PStr (Text.strip s))) pieces).

(** [get_all_data] is four [try] blocks in a row, each filling one key of
    [result]; they are given here one by one, in the order of the source. *)

(** 1. Device info (model, firmware, communication status, etc.) *)
Definition fetch_device (env : Env) (result : gmap string pyval)
  : M (gmap string pyval) :=
  try_except_api
    (let* me := get_self in
     let* r := _post env path_detail (device_body (sn_bms me)) in
     let* data := lift (Py.get r "data" (PDict [])) in
     ret (<["device" := data]> result))
    (fun e =>
       let* _ := log WARNING ("Device detail failed: " +:+ exn_str e) in
       ret (<["device" := PDict []]> result)).

(** 2. Power / SOC history: take the latest non-null entry *)
Definition fetch_power (env : Env) (result : gmap string pyval)
  : M (gmap string pyval) :=
  try_except_api
    (let* me := get_self in
     let* r := _post env path_power (device_body (sn_bms me)) in
     let* data := lift (Py.get r "data" PNone) in
     let* xs := lift (Py.iter (Py.or_ data (PList []))) in
     let* records := lift (power_records xs) in
     ret (<["power" := match records with
                       | [] => PDict []
                       | _ => List.last records PNone
                       end]> result))
    (fun e =>
       let* _ := log WARNING ("Power data failed: " +:+ exn_str e) in
       ret (<["power" := PDict []]> result)).

(** Auto-discover module SN from SUB field *)
Definition discover_module (bms : list (pykey * pyval)) : M unit :=
  let* me := get_self in
  if negb (Py.truthy (PStr (sn_module me))) then
    let* sub := lift (Py.get (PDict bms) "SUB" (PStr "")) in
    let* pieces := lift (split_comma sub) in
    match stripped_nonempty pieces with
    | [] => ret tt
    | first :: _ =>
        let* _ := set_sn_module first in
        log DEBUG ("Auto-discovered module SN: " +:+ first)
    end
  else ret tt.

(** 3. BMS real-time points (cell voltages, temps, alarms, etc.) *)
Definition fetch_bms (env : Env) (result : gmap string pyval)
  : M (gmap string pyval) :=
  try_except_api
    (let* me := get_self in
     let* r := _post env path_realtime (device_body (sn_bms me)) in
     let* data := lift (Py.get r "data" PNone) in
     let* ps := lift (Py.iter (Py.or_ data (PList []))) in
     let* bms := lift (points_dict ps []) in
     let result := <["bms" := PDict bms]> result in
     let* _ := discover_module bms in
     ret result)
    (fun e =>
       let* _ := log WARNING ("BMS real-time data failed: " +:+ exn_str e) in
       ret (<["bms" := PDict []]> result)).

(** 4. Dongle/data-logger diagnostics (signal strength, uptime, etc.) *)
Definition fetch_dongle (env : Env) (result : gmap string pyval)
  : M (gmap string pyval) :=
  try_except_api
    (let* me := get_self in
     let* r := _post env path_realtime (device_body (sn_dongle me)) in
     let* data := lift (Py.get r "data" PNone) in
     let* ps := lift (Py.iter (Py.or_ data (PList []))) in
     let* dongle := lift (points_dict ps []) in
     ret (<["dongle" := PDict dongle]> result))
    (fun e =>
       let* _ := log WARNING ("Dongle data failed: " +:+ exn_str e) in
       ret (<["dongle" := PDict []]> result)).

(** Fetch all available data and return a unified dict. *)
Definition get_all_data (env : Env) : M (gmap string pyval) :=
  let result : gmap string pyval := ∅ in
  let* result := fetch_device env result in
  let* result := fetch_power env result in
  let* result := fetch_bms env result in
  let* result := fetch_dongle env result in
  ret result.

(** ** coordinator.py *)

Record DynessCoordinator := { api : DynessAPI }.

(** [DynessCoordinator._async_update_data], run on the coordinator's client *)
Definition _async_update_data (env : Env) : M (gmap string pyval) :=
  try_except_api
    (get_all_data env)
    (fun err =>
       raise (Exn UpdateFailed ("Dyness API error: " +:+ exn_str err)
                (Some err))).

(** ** __init__.py and config_flow.py *)

(** [data[key]] on the mapping of a config entry or of the form input *)
Definition entry_item (data : gmap string string) (key : string)
  : result string :=
  match data !! key with
  | Some v => Ok v
  | None => Raise (Exn KeyError (Text.repr key) None)
  end.

(** [async_setup_entry], up to the coordinator it builds: the first refresh
    and the registration with the host follow and leave [base_url] as it is. *)
Definition async_setup_entry (entry_data : gmap string string)
  : result DynessCoordinator :=
  let? a := entry_item entry_data "api_id" in
  let? b := entry_item entry_data "api_secret" in
  let? c := entry_item entry_data "sn_bms" in
  let? d := entry_item entry_data "sn_dongle" in
  let api := __init__ a b c d None None in
  Ok {| api := api |}.

(** the client [validate_input] builds before it calls [test_connection] *)
Definition validate_input_api (data : gmap string string) : result DynessAPI :=
  let? a := entry_item data "api_id" in
  let? b := entry_item data "api_secret" in
  let? c := entry_item data "sn_bms" in
  let? d := entry_item data "sn_dongle" in
  Ok (__init__ a b c d None (Some (default "global" (data !! "region")))).

(** [validate_input]: the title of the entry to create.  The client it builds
    lives in a world of its own, with nothing sent yet. *)
Definition validate_input (env : Env) (data : gmap string string)
  : result (gmap string string) :=
  let? api := validate_input_api data in
  let? device_info :=
    fst (test_connection env {| self := api; sent := []; logged := [] |}) in
  let? a := Py.get device_info "deviceModelName" PNone in
  let? model :=
    (if Py.truthy a then Ok a
     else let? b := Py.get device_info "deviceName" PNone in
          Ok (Py.or_ b (PStr "Dyness Battery"))) in
  let? s := Py.get device_info "stationName" PNone in
  let? station :=
    (if Py.truthy s then Ok s
     else let? c := entry_item data "sn_bms" in Ok (PStr c)) in
  Ok {[ "title" := Py.str model +:+ " — " +:+ Py.str station ]}.

(** ** Definitions used to state the properties *)

(** the request [_post] hands to the session when the client is [me] and [n]
    requests went out before *)
Definition request_at (env : Env) (me : DynessAPI) (n : nat) (path : string)
    (body : pyval) : Request :=
  let body_str := Json.dumps_with "," ":" body in
  {| req_url := base_url me +:+ path;
     req_headers := _headers me (clock env n) path body_str;
     req_data := body_str;
     req_ssl := false;
     req_timeout := 20 |}.

Definition request_of (env : Env) (w : World) (path : string) (body : pyval)
  : Request :=
  request_at env (self w) (length (sent w)) path body.

Definition after_send (req : Request) (w : World) : World :=
  {| self := self w; sent := sent w ++ [req]; logged := logged w |}.

Definition after_log (level : log_level) (line : string) (w : World) : World :=
  {| self := self w; sent := sent w; logged := logged w ++ [(level, line)] |}.

(** the world once the request of a block has gone out *)
Definition sent_by (env : Env) (w : World) (path : string)
    (sn : DynessAPI -> string) : World :=
  after_send (request_of env w path (device_body (sn (self w)))) w.

(** the classes of the exceptions the post-processing of a payload raises *)
Definition builtin_class (c : exc_class) : Prop :=
  c = AttributeError \/ c = KeyError \/ c = TypeError.

(** the status-code and message fields of an envelope, [None] when absent *)
Definition code_of (items : list (pykey * pyval)) : pyval :=
  default PNone (Py.lookup (KStr "code") items).

Definition info_of (items : list (pykey * pyval)) : pyval :=
  default PNone (Py.lookup (KStr "info") items).

(** [str(code) in ("0", "200")] *)
Definition is_success (code : pyval) : bool :=
  existsb (String.eqb (Py.str code)) success_codes.

(** the error of an application-level rejection *)
Definition rejection (path : string) (items : list (pykey * pyval)) : exn :=
  Exn DynessAPIError
    (path +:+ " → code=" +:+ Py.str (code_of items) +:+ " | "
       +:+ Py.str (info_of items)) None.

(** the error that wraps an exception raised while the call was under way *)
Definition wrapped (path : string) (err : exn) : exn :=
  Exn DynessAPIError ("Request to " +:+ path +:+ " failed: " +:+ exn_str err)
    (Some err).

(** what a call made on [path] comes to, given the outcome of its request *)
Definition call_result (path : string) (o : http_outcome) : result pyval :=
  match o with
  | Fault f => Raise (wrapped path (fault_exn f))
  | Body (PDict items) =>
      if is_success (code_of items)
      then Ok (PDict items)
      else Raise (rejection path items)
  | Body data => Raise (wrapped path (Py.no_attribute data "get"))
  end.

(** the value each block files under its key, from the envelope of its call *)
Definition device_value (r : pyval) : result pyval :=
  Py.get r "data" (PDict []).

Definition power_value (r : pyval) : result pyval :=
  let? data := Py.get r "data" PNone in
  let? xs := Py.iter (Py.or_ data (PList [])) in
  let? records := power_records xs in
  Ok (match records with
      | [] => PDict []
      | _ => List.last records PNone
      end).

Definition points_value (r : pyval) : result (list (pykey * pyval)) :=
  let? data := Py.get r "data" PNone in
  let? ps := Py.iter (Py.or_ data (PList [])) in
  points_dict ps [].

(** the module serial the SUB point offers, if any *)
Definition discovered (bms : list (pykey * pyval)) : result (option string) :=
  let? sub := Py.get (PDict bms) "SUB" (PStr "") in
  let? pieces := split_comma sub in
  Ok (head (stripped_nonempty pieces)).

Definition with_module (s : string) (w : World) : World :=
  {| self := with_sn_module s (self w); sent := sent w; logged := logged w |}.

(** the value of a block: that of its call when the call succeeds, the empty
    one when the call fails *)
Definition section_value {A} (c : result pyval) (value : pyval -> result A)
    (empty : A) : result A :=
  match c with
  | Ok r => value r
  | Raise _ => Ok empty
  end.

Definition bms_value (undiscovered : bool) (r : pyval) : result pyval :=
  let? bms := points_value r in
  let? _ := (if undiscovered then discovered bms else Ok None) in
  Ok (PDict bms).

Definition dongle_value (r : pyval) : result pyval :=
  let? dongle := points_value r in
  Ok (PDict dongle).

(** the snapshot as a function of what the four calls come to; [undiscovered]
    tells whether the module serial is still empty when the cycle starts *)
Definition snapshot_of (undiscovered : bool) (c0 c1 c2 c3 : result pyval)
  : result (gmap string pyval) :=
  let? d := section_value c0 device_value (PDict []) in
  let? p := section_value c1 power_value (PDict []) in
  let? b := section_value c2 (bms_value undiscovered) (PDict []) in
  let? g := section_value c3 dongle_value (PDict []) in
  Ok (<["dongle" := g]> (<["bms" := b]> (<["power" := p]>
       (<["device" := d]> ∅)))).

(** the module serial after the BMS block, entered with [current] *)
Definition module_step (current : string) (c2 : result pyval) : string :=
  if negb (String.eqb current "") then current
  else
    match c2 with
    | Ok r =>
        match points_value r with
        | Ok bms =>
            match discovered bms with
            | Ok (Some s) => s
            | _ => current
            end
        | Raise _ => current
        end
    | Raise _ => current
    end.

(** the module serial after a cycle that started with [current] *)
Definition module_after (current : string) (c0 c1 c2 : result pyval) : string :=
  match section_value c0 device_value (PDict []),
        section_value c1 power_value (PDict []) with
  | Ok _, Ok _ => module_step current c2
  | _, _ => current
  end.

(** what the [k]-th call of a cycle started in world [w] comes to: the result
    of [_post] once [k] requests of the cycle have gone out *)
Definition call_at (env : Env) (w : World) (k : nat) (path : string)
  : result pyval :=
  call_result path (net env (k + length (sent w))).

(** the four requests of a cycle started in world [w] *)
Definition cycle_requests (env : Env) (w : World) : list Request :=
  let me := self w in
  let n := length (sent w) in
  [ request_at env me n path_detail (device_body (sn_bms me));
    request_at env me (1 + n) path_power (device_body (sn_bms me));
    request_at env me (2 + n) path_realtime (device_body (sn_bms me));
    request_at env me (3 + n) path_realtime (device_body (sn_dongle me)) ].

(** ** Shapes of payloads *)

(** the [data] field of an envelope, [None] when absent *)
Definition data_of (r : pyval) : pyval :=
  match r with
  | PDict items => default PNone (Py.lookup (KStr "data") items)
  | _ => PNone
  end.

Definition is_record (x : pyval) : bool :=
  match x with
  | PDict _ => true
  | _ => false
  end.

Definition is_str (x : pyval) : bool :=
  match x with
  | PStr _ => true
  | _ => false
  end.

(** a list, or a value that [data or []] replaces by the empty list *)
Definition list_or_empty (data : pyval) : bool :=
  negb (Py.truthy data) || match data with PList _ => true | _ => false end.

Definition entries_of (data : pyval) : list pyval :=
  match data with
  | PList xs => xs
  | _ => []
  end.

(** a power history: a list of records, or nothing *)
Definition history_ok (data : pyval) : bool :=
  list_or_empty data && forallb is_record (entries_of data).

(** a point record: it has a hashable [pointId] and a [pointValue] *)
Definition point_ok (p : pyval) : bool :=
  match p with
  | PDict items =>
      match Py.lookup (KStr "pointId") items,
            Py.lookup (KStr "pointValue") items with
      | Some (PList _), _ | Some (PDict _), _ => false
      | Some _, Some _ => true
      | _, _ => false
      end
  | _ => false
  end.

(** real-time points: a list of point records, or nothing *)
Definition points_ok (data : pyval) : bool :=
  list_or_empty data && forallb point_ok (entries_of data).

(** every point named [SUB] carries a text *)
Definition sub_point_ok (p : pyval) : bool :=
  match p with
  | PDict items =>
      match Py.lookup (KStr "pointId") items,
            Py.lookup (KStr "pointValue") items with
      | Some (PStr k), Some v => negb (String.eqb k "SUB") || is_str v
      | _, _ => true
      end
  | _ => true
  end.

Definition sub_ok (data : pyval) : bool :=
  forallb sub_point_ok (entries_of data).

(** a call whose payload, if it succeeds, has the shape its block expects *)
Definition fits (shape : pyval -> bool) (c : result pyval) : bool :=
  match c with
  | Ok r => shape (data_of r)
  | Raise _ => true
  end.

Definition is_ok {A} (r : result A) : Prop :=
  match r with
  | Ok _ => True
  | Raise _ => False
  end.

(** the keys of a snapshot *)
Definition section_keys : gset string :=
  {[ "device"; "power"; "bms"; "dongle" ]}.

(** the SUB entry of a point map is absent or a text *)
Definition sub_text (bms : list (pykey * pyval)) : bool :=
  match Py.lookup (KStr "SUB") bms with
  | Some v => is_str v
  | None => true
  end.

(** ** Worked inputs *)

Definition demo_client : DynessAPI :=
  __init__ "demo-id" "demo-secret" "R07E-BMS" "R07E-DL" None None.

Definition demo_world : World :=
  {| self := demo_client; sent := []; logged := [] |}.

(** an envelope accepted by the client, with the given [data] *)
Definition envelope (data : pyval) : pyval :=
  PDict [(KStr "code", PInt 200); (KStr "info", PStr "success");
         (KStr "data", data)].

Definition point (id : string) (value : pyval) : pyval :=
  PDict [(KStr "pointId", PStr id); (KStr "pointValue", value)].

(** the responses of one cycle in order, every later request timing out *)
Definition scripted (outcomes : list http_outcome) : Env :=
  {| net := fun k => nth k outcomes (Fault (Timeout ""));
     clock := fun k => 1794009600 + Z.of_nat k |}.

(** the BMS call succeeds with a point record that has no [pointId] *)
Definition env_bad_point : Env :=
  scripted [ Fault (Timeout ""); Fault (ConnectionFault "reset");
             Body (envelope (PList [PDict []]));
             Fault (Timeout "") ].

(** device detail succeeds, the three other calls fail in the transport *)
Definition env_device_only : Env :=
  scripted [ Body (envelope (PDict [(KStr "deviceName", PStr "Tower")]));
             Fault (Timeout ""); Fault (ConnectionFault "reset");
             Fault (MalformedJSON "Expecting value") ].

(** ** The power history *)

(** the entry has a [realTimePower] field that is not [None] *)
Definition has_power (x : pyval) : bool :=
  match Py.get x "realTimePower" PNone with
  | Ok PNone | Raise _ => false
  | Ok _ => true
  end.

(** [p] is the last entry of [xs] with a usable [realTimePower]; the empty map
    when no entry has one *)
Definition latest_power (xs : list pyval) (p : pyval) : Prop :=
  (exists i,
      xs !! i = Some p /\ has_power p = true
      /\ forall j y, (i < j)%nat -> xs !! j = Some y -> has_power y = false)
  \/ (p = PDict [] /\ forall y, y ∈ xs -> has_power y = false).

(** the history of the example: null, 5, null *)
Definition power_entry (v : pyval) : pyval := PDict [(KStr "realTimePower", v)].

Definition history_example : list pyval :=
  [power_entry PNone; power_entry (PInt 5); power_entry PNone].

(** ** Module-serial discovery and polling *)

(** the first comma-separated token of [sub] once every token is trimmed and
    the empty ones are dropped; the empty text when none is left *)
Definition first_token (sub : string) : string :=
  default ""
    (head (List.filter (fun t => negb (String.eqb t ""))
             (map Text.strip (Text.split ","%char sub)))).

(** the world after so many rounds of the coordinator's update *)
Fixpoint poll (env : Env) (cycles : nat) (w : World) : World :=
  match cycles with
  | O => w
  | S k => poll env k (snd (_async_update_data env w))
  end.

(** ** The signature and the digest, in the words of the protocol *)

(** the five fields joined by newline *)
Definition signing_string (method digest content_type timestamp path : string)
  : string :=
  Text.join Text.LF [method; digest; content_type; timestamp; path].

(** base64 of the raw HMAC-SHA1, keyed by the secret, of the signing string *)
Definition signature_of (secret method digest content_type timestamp path
                         : string) : string :=
  decode
    (Base64.b64encode
       (Hmac.hmac_sha1 (encode secret)
          (encode (signing_string method digest content_type timestamp path)))).

(** the body as it is serialized for the wire: compact separators *)
Definition canonical (body : pyval) : string := Json.dumps_with "," ":" body.

(** base64 of the raw MD5 digest of the canonical serialization *)
Definition content_digest (body : pyval) : string :=
  decode (Base64.b64encode (Hashlib.md5 (encode (canonical body)))).

(** two texts of 72 bytes that differ in one byte *)
Definition collision_a : string :=
  "TEXTCOLLBYfGiJUETHQ4hAcKSMd5zYpgqf1YRDhkmxHkhPWptrkoyz28wnI9V0aHeAuaKnak".

Definition collision_b : string :=
  "TEXTCOLLBYfGiJUETHQ4hEcKSMd5zYpgqf1YRDhkmxHkhPWptrkoyz28wnI9V0aHeAuaKnak".

(** ** Region and base URL *)

Definition URL_global : string :=
  "https://open-api.dyness.com/openapi/ems-device".

Definition URL_apac : string :=
  "https://apacopenapi.dyness.com/openapi/ems-device".

(** a config entry as the form stores it *)
Definition demo_entry (region : string) : gmap string string :=
  {[ "api_id" := "demo-id"; "api_secret" := "demo-secret";
     "sn_bms" := "R07E-BMS"; "sn_dongle" := "R07E-DL";
     "region" := region ]}.

(** a full cycle: device detail, the history of the example, two points with
    a SUB value, and a dongle report *)
Definition env_full : Env :=
  scripted [ Body (envelope (PDict [(KStr "deviceName", PStr "Tower")]));
             Body (envelope (PList history_example));
             Body (envelope (PList [point "SOC" (PStr "87");
                                    point "SUB" (PStr " ABC123 , DEF456")]));
             Body (envelope (PList [point "RSSI" (PInt (-61))])) ].

(** a later cycle in which the SUB point names other modules *)
Definition env_other_sub : Env :=
  scripted [ Fault (Timeout "");
             Fault (Timeout "");
             Body (envelope (PList [point "SUB" (PStr "XYZ789")]));
             Fault (Timeout "") ].

Definition discovered_world : World :=
  {| self := with_sn_module "ABC123" demo_client; sent := []; logged := [] |}.

(** the service rejects the signature *)
Definition env_rejected : Env :=
  scripted [ Body (PDict [(KStr "code", PStr "1");
                          (KStr "info", PStr "invalid signature")]) ].

(** a point whose SUB value is a number *)
Definition env_sub_number : Env :=
  scripted [ Fault (Timeout ""); Fault (Timeout "");
             Body (envelope (PList [point "SUB" (PInt 7)]));
             Fault (Timeout "") ].

(** ** Serials written in binary *)

Definition bit_char (b : bool) : ascii := if b then "1"%char else "0"%char.

(** the serial spelled by a row of bits, one digit each *)
Fixpoint bit_serial (bits : list bool) : string :=
  match bits with
  | [] => ""
  | b :: rest => String (bit_char b) (bit_serial rest)
  end.

Definition bits8 : Type :=
  (bool * (bool * (bool * (bool * (bool * (bool * (bool * bool)))))))%type.

(** * Properties *)

(** ** The library functions on published test vectors *)

Example md5_rfc1321_abc :
  Hashlib.hex (Hashlib.md5 (encode "abc")) = "900150983cd24fb0d6963f7d28e17f72".
Proof. by vm_compute. Qed.

Example md5_rfc1321_digits :
  Hashlib.hex
    (Hashlib.md5
       (encode "12345678901234567890123456789012345678901234567890123456789012345678901234567890"))
  = "57edf4a22be3c955ac49da2e2107b67a".
Proof. by vm_compute. Qed.

Example sha1_fips180_abc :
  Hashlib.hex (Hashlib.sha1 (encode "abc"))
  = "a9993e364706816aba3e25717850c26c9cd0d89d".
Proof. by vm_compute. Qed.

Example sha1_fips180_two_blocks :
  Hashlib.hex
    (Hashlib.sha1
       (encode "abcdbcdecdefdefgefghfghighijhijkijkljklmklmnlmnomnopnopq"))
  = "84983e441c3bd26ebaae4aa1f95129e5e54670f1".
Proof. by vm_compute. Qed.

Example hmac_sha1_rfc2202_case2 :
  Hashlib.hex
    (Hmac.hmac_sha1 (encode "Jefe") (encode "what do ya want for nothing?"))
  = "effcdf6ae5eb2fa2d27416d5f184df9c259a7c79".
Proof. by vm_compute. Qed.

Example hmac_sha1_rfc2202_case6 :
  Hashlib.hex
    (Hmac.hmac_sha1 (repeat xaa 80)
       (encode "Test Using Larger Than Block-Size Key - Hash Key First"))
  = "aa4ae5e15272d00e95705637ce8a3b55ed402112".
Proof. by vm_compute. Qed.

Example b64encode_rfc4648 :
  map (fun s => decode (Base64.b64encode (encode s))) ["foobar"; "fooba"; "foob"]
  = ["Zm9vYmFy"; "Zm9vYmE="; "Zm9vYg=="].
Proof. by vm_compute. Qed.

Example gmt_time_example :
  map _gmt_time [0; 951782400; 1794009600]
  = ["Thu, 01 Jan 1970 00:00:00 GMT"; "Tue, 29 Feb 2000 00:00:00 GMT";
     "Sat, 07 Nov 2026 00:00:00 GMT"].
Proof. by vm_compute. Qed.

Example dumps_example :
  let v := PDict [(KStr "deviceSn", PStr "R07E-BMS");
                  (KInt 1, PList [PNone; PBool true; PFloat "1.5"])] in
  let q := Text.str1 (Text.chr 34) in
  Json.dumps_with "," ":" v
  = "{" +:+ q +:+ "deviceSn" +:+ q +:+ ":" +:+ q +:+ "R07E-BMS" +:+ q +:+ ","
        +:+ q +:+ "1" +:+ q +:+ ":[null,true,1.5]}"
  /\ Json.dumps v
     = "{" +:+ q +:+ "deviceSn" +:+ q +:+ ": " +:+ q +:+ "R07E-BMS" +:+ q
           +:+ ", " +:+ q +:+ "1" +:+ q +:+ ": [null, true, 1.5]}"
  /\ Py.str v = "{'deviceSn': 'R07E-BMS', 1: [None, True, 1.5]}".
Proof. by vm_compute. Qed.

Example strip_example :
  map Text.strip (Text.split ","%char " ABC123 , DEF456")
  = ["ABC123"; "DEF456"]
  /\ Text.split ","%char "" = [""]
  /\ stripped_nonempty (Text.split ","%char " , ,") = [].
Proof. by vm_compute. Qed.

Example headers_example :
  let me := __init__ "id" "secret" "BMS1" "DON1" None None in
  _md5 "{}" = "mZFLkyvTelC5g8XnyQrpOw=="
  /\ _headers me 0 "/p" "{}" !! "Authorization"
     = Some "API id:og8IrMqsnDZWllRZfmaADLOoweQ=".
Proof. by vm_compute. Qed.

(** ** The signed call *)

Lemma _post_run env path body w :
  _post env path body w
  = (call_result path (net env (length (sent w))),
     after_send (request_of env w path body) w).
Proof.
  unfold _post, bind, get_self, calls_made, try_except, session_post.
  fold (request_at env (self w) (length (sent w)) path body).
  fold (request_of env w path body).
  fold (after_send (request_of env w path body) w).
  destruct (net env (length (sent w))) as [f | data]; [by destruct f |].
  destruct data; try reflexivity.
  unfold lift, call_result, Py.get, is_success, code_of, info_of, rejection.
  by destruct (existsb (String.eqb _) success_codes).
Qed.

Lemma call_at_post env w k w' path body :
  length (sent w') = (k + length (sent w))%nat ->
  fst (_post env path body w') = call_at env w k path.
Proof. intros H. rewrite _post_run. unfold call_at. by rewrite H. Qed.

Lemma call_result_api_error path o e :
  call_result path o = Raise e -> is_api_error e = true.
Proof.
  destruct o as [f | data]; simpl.
  - by intros [= <-].
  - destruct data; try by intros [= <-].
    destruct (is_success _); [done | by intros [= <-]].
Qed.

Lemma call_result_dict path o r :
  call_result path o = Ok r -> exists items, r = PDict items /\ o = Body r.
Proof.
  destruct o as [f | data]; simpl; [done |].
  destruct data; try done.
  destruct (is_success _); [| done].
  intros [= <-]. eauto.
Qed.

(** the common shape of the four blocks *)
Lemma fetch_run {A} env path (sn : DynessAPI -> string)
    (process : pyval -> M A) (handler : exn -> M A) w :
  try_except_api
    (let* me := get_self in
     let* r := _post env path (device_body (sn me)) in
     process r) handler w
  = let w1 := after_send (request_of env w path (device_body (sn (self w)))) w in
    match call_result path (net env (length (sent w))) with
    | Ok r =>
        match process r w1 with
        | (Raise e, w2) =>
            if is_api_error e then handler e w2 else (Raise e, w2)
        | x => x
        end
    | Raise e => handler e w1
    end.
Proof.
  unfold try_except_api, bind, get_self. rewrite _post_run.
  destruct (call_result _ _) as [r | e] eqn:Hc; simpl.
  - by destruct (process r _) as [[?|?] ?].
  - by rewrite (call_result_api_error _ _ _ Hc).
Qed.

Lemma py_get_class v name d e :
  Py.get v name d = Raise e -> exn_class e = AttributeError.
Proof. destruct v; simpl; first [done | by intros [= <-]]. Qed.

Lemma py_getitem_class v name e :
  Py.getitem v name = Raise e ->
  exn_class e = KeyError \/ exn_class e = TypeError.
Proof.
  destruct v; simpl; try (intros [= <-]; auto).
  destruct (Py.lookup _ _); [done | intros [= <-]; auto].
Qed.

Lemma py_iter_class v e : Py.iter v = Raise e -> exn_class e = TypeError.
Proof. destruct v; simpl; first [done | by intros [= <-]]. Qed.

Lemma py_to_key_class v e : Py.to_key v = Raise e -> exn_class e = TypeError.
Proof. destruct v; simpl; first [done | by intros [= <-]]. Qed.

Lemma power_records_class xs e :
  power_records xs = Raise e -> exn_class e = AttributeError.
Proof.
  induction xs as [| x xs IH]; simpl; [done |].
  destruct (Py.get x _ _) eqn:Hg; simpl.
  - destruct (power_records xs); simpl; [done | intros [= <-]; auto].
  - intros [= <-]. eauto using py_get_class.
Qed.

Lemma points_dict_class ps acc e :
  points_dict ps acc = Raise e ->
  exn_class e = KeyError \/ exn_class e = TypeError.
Proof.
  revert acc. induction ps as [| p ps IH]; intros acc; simpl; [done |].
  destruct (Py.getitem p "pointId") eqn:H1; simpl;
    [| intros [= <-]; eauto using py_getitem_class].
  destruct (Py.getitem p "pointValue") eqn:H2; simpl;
    [| intros [= <-]; eauto using py_getitem_class].
  destruct (Py.to_key _) eqn:H3; simpl;
    [| intros [= <-]; eauto using py_to_key_class].
  apply IH.
Qed.

Lemma split_comma_class v e :
  split_comma v = Raise e -> exn_class e = AttributeError.
Proof. destruct v; simpl; first [done | by intros [= <-]]. Qed.

Lemma builtin_not_api e : builtin_class (exn_class e) -> is_api_error e = false.
Proof. unfold is_api_error. by intros [-> | [-> | ->]]. Qed.

Lemma power_value_class r e :
  power_value r = Raise e -> builtin_class (exn_class e).
Proof.
  unfold power_value, builtin_class.
  destruct (Py.get r _ _) eqn:H1; simpl;
    [| intros [= <-]; eauto using py_get_class].
  destruct (Py.iter _) eqn:H2; simpl;
    [| intros [= <-]; eauto using py_iter_class].
  destruct (power_records _) eqn:H3; simpl;
    [done | intros [= <-]; eauto using power_records_class].
Qed.

Lemma points_value_class r e :
  points_value r = Raise e -> builtin_class (exn_class e).
Proof.
  unfold points_value, builtin_class.
  destruct (Py.get r _ _) eqn:H1; simpl;
    [| intros [= <-]; eauto using py_get_class].
  destruct (Py.iter _) eqn:H2; simpl;
    [| intros [= <-]; eauto using py_iter_class].
  intros H. destruct (points_dict_class _ _ _ H); auto.
Qed.

Lemma discovered_class bms e :
  discovered bms = Raise e -> exn_class e = AttributeError.
Proof.
  unfold discovered. simpl.
  destruct (split_comma _) eqn:H; simpl; [done |].
  intros [= <-]. eauto using split_comma_class.
Qed.

(** ** The four blocks of [get_all_data], one equation each *)

Lemma fetch_device_run env result w :
  fetch_device env result w
  = match call_result path_detail (net env (length (sent w))) with
    | Ok r =>
        match device_value r with
        | Ok d => (Ok (<["device" := d]> result), sent_by env w path_detail sn_bms)
        | Raise e => (Raise e, sent_by env w path_detail sn_bms)
        end
    | Raise e =>
        (Ok (<["device" := PDict []]> result),
         after_log WARNING ("Device detail failed: " +:+ exn_str e)
           (sent_by env w path_detail sn_bms))
    end.
Proof.
  unfold fetch_device. rewrite fetch_run.
  destruct (call_result _ _) as [r | e]; [| reflexivity].
  unfold bind, lift, ret, device_value. cbv zeta.
  destruct (Py.get r _ _) as [d | e] eqn:Hg; [reflexivity |].
  by rewrite builtin_not_api
    by (left; eauto using py_get_class).
Qed.

Lemma fetch_power_run env result w :
  fetch_power env result w
  = match call_result path_power (net env (length (sent w))) with
    | Ok r =>
        match power_value r with
        | Ok p => (Ok (<["power" := p]> result), sent_by env w path_power sn_bms)
        | Raise e => (Raise e, sent_by env w path_power sn_bms)
        end
    | Raise e =>
        (Ok (<["power" := PDict []]> result),
         after_log WARNING ("Power data failed: " +:+ exn_str e)
           (sent_by env w path_power sn_bms))
    end.
Proof.
  unfold fetch_power. rewrite fetch_run.
  destruct (call_result _ _) as [r | e]; [| reflexivity].
  cbv zeta.
  destruct (power_value r) as [p | e] eqn:Hp.
  - unfold power_value in Hp. unfold bind, lift, ret.
    destruct (Py.get r _ _); [| done]. simpl in Hp.
    destruct (Py.iter _); [| done]. simpl in Hp.
    destruct (power_records _); [| done]. by injection Hp as <-.
  - pose proof (builtin_not_api e (power_value_class _ _ Hp)) as Hne.
    unfold power_value in Hp. unfold bind, lift, ret.
    destruct (Py.get r _ _); simpl in Hp;
      [| injection Hp as <-; by rewrite Hne].
    destruct (Py.iter _); simpl in Hp;
      [| injection Hp as <-; by rewrite Hne].
    destruct (power_records _); simpl in Hp; [done |].
    injection Hp as <-; by rewrite Hne.
Qed.

Lemma discover_module_run bms w :
  discover_module bms w
  = if String.eqb (sn_module (self w)) "" then
      match discovered bms with
      | Raise e => (Raise e, w)
      | Ok None => (Ok tt, w)
      | Ok (Some s) =>
          (Ok tt,
           after_log DEBUG ("Auto-discovered module SN: " +:+ s)
             (with_module s w))
      end
    else (Ok tt, w).
Proof.
  unfold discover_module, bind, get_self, Py.truthy.
  destruct (String.eqb (sn_module (self w)) ""); [| reflexivity].
  unfold discovered, lift. simpl.
  destruct (split_comma _) as [pieces | e]; [| reflexivity]. simpl.
  by destruct (stripped_nonempty pieces).
Qed.

Lemma fetch_bms_run env result w :
  fetch_bms env result w
  = match call_result path_realtime (net env (length (sent w))) with
    | Ok r =>
        match points_value r with
        | Ok bms =>
            match discover_module bms (sent_by env w path_realtime sn_bms) with
            | (Ok _, w2) => (Ok (<["bms" := PDict bms]> result), w2)
            | (Raise e, w2) => (Raise e, w2)
            end
        | Raise e => (Raise e, sent_by env w path_realtime sn_bms)
        end
    | Raise e =>
        (Ok (<["bms" := PDict []]> result),
         after_log WARNING ("BMS real-time data failed: " +:+ exn_str e)
           (sent_by env w path_realtime sn_bms))
    end.
Proof.
  unfold fetch_bms. rewrite fetch_run.
  destruct (call_result _ _) as [r | e]; [| reflexivity].
  cbv zeta. fold (sent_by env w path_realtime sn_bms).
  destruct (points_value r) as [bms | e] eqn:Hp.
  - unfold points_value in Hp. unfold bind at 1 2 3, lift, ret.
    destruct (Py.get r _ _); [| done]. simpl in Hp.
    destruct (Py.iter _); [| done]. simpl in Hp.
    rewrite Hp. unfold bind.
    destruct (discover_module bms _) as [[[] | e] w2] eqn:Hd; [done |].
    rewrite discover_module_run in Hd.
    destruct (String.eqb _ _); [| done].
    destruct (discovered bms) as [[s |] | e'] eqn:He; try done.
    injection Hd as <- <-.
    by rewrite builtin_not_api
      by (left; eauto using discovered_class).
  - pose proof (builtin_not_api e (points_value_class _ _ Hp)) as Hne.
    unfold points_value in Hp. unfold bind, lift, ret.
    destruct (Py.get r _ _); simpl in Hp;
      [| injection Hp as <-; by rewrite Hne].
    destruct (Py.iter _); simpl in Hp;
      [| injection Hp as <-; by rewrite Hne].
    rewrite Hp. by rewrite Hne.
Qed.

Lemma fetch_dongle_run env result w :
  fetch_dongle env result w
  = match call_result path_realtime (net env (length (sent w))) with
    | Ok r =>
        match points_value r with
        | Ok dongle =>
            (Ok (<["dongle" := PDict dongle]> result),
             sent_by env w path_realtime sn_dongle)
        | Raise e => (Raise e, sent_by env w path_realtime sn_dongle)
        end
    | Raise e =>
        (Ok (<["dongle" := PDict []]> result),
         after_log WARNING ("Dongle data failed: " +:+ exn_str e)
           (sent_by env w path_realtime sn_dongle))
    end.
Proof.
  unfold fetch_dongle. rewrite fetch_run.
  destruct (call_result _ _) as [r | e]; [| reflexivity].
  cbv zeta. fold (sent_by env w path_realtime sn_dongle).
  destruct (points_value r) as [bms | e] eqn:Hp.
  - unfold points_value in Hp. unfold bind, lift, ret.
    destruct (Py.get r _ _); [| done]. simpl in Hp.
    destruct (Py.iter _); [| done]. simpl in Hp.
    by rewrite Hp.
  - pose proof (builtin_not_api e (points_value_class _ _ Hp)) as Hne.
    unfold points_value in Hp. unfold bind, lift, ret.
    destruct (Py.get r _ _); simpl in Hp;
      [| injection Hp as <-; by rewrite Hne].
    destruct (Py.iter _); simpl in Hp;
      [| injection Hp as <-; by rewrite Hne].
    rewrite Hp. by rewrite Hne.
Qed.

(** ** [get_all_data] against its functional description *)

Lemma with_sn_module_same me : with_sn_module (sn_module me) me = me.
Proof. by destruct me. Qed.

Lemma request_at_module env s me n path body :
  request_at env (with_sn_module s me) n path body
  = request_at env me n path body.
Proof. reflexivity. Qed.

Section Blocks.

Variable env : Env.
Variable result : gmap string pyval.
Variable w : World.

Let n := length (sent w).
Let me := self w.

Lemma fetch_device_spec :
  exists w',
    fetch_device env result w
    = ((let? d := section_value (call_result path_detail (net env n))
                    device_value (PDict []) in
        Ok (<["device" := d]> result)), w')
    /\ sent w' = sent w ++ [request_at env me n path_detail
                              (device_body (sn_bms me))]
    /\ self w' = me.
Proof.
  rewrite fetch_device_run. subst n me.
  destruct (call_result _ _) as [r | e]; simpl.
  - destruct (device_value r); eauto.
  - eauto.
Qed.

Lemma fetch_power_spec :
  exists w',
    fetch_power env result w
    = ((let? p := section_value (call_result path_power (net env n))
                    power_value (PDict []) in
        Ok (<["power" := p]> result)), w')
    /\ sent w' = sent w ++ [request_at env me n path_power
                              (device_body (sn_bms me))]
    /\ self w' = me.
Proof.
  rewrite fetch_power_run. subst n me.
  destruct (call_result _ _) as [r | e]; simpl.
  - destruct (power_value r); eauto.
  - eauto.
Qed.

Lemma fetch_bms_spec :
  exists w',
    fetch_bms env result w
    = ((let? b := section_value (call_result path_realtime (net env n))
                    (bms_value (String.eqb (sn_module me) "")) (PDict []) in
        Ok (<["bms" := b]> result)), w')
    /\ sent w' = sent w ++ [request_at env me n path_realtime
                              (device_body (sn_bms me))]
    /\ self w'
       = with_sn_module
           (module_step (sn_module me)
              (call_result path_realtime (net env n))) me.
Proof.
  rewrite fetch_bms_run. subst n me. unfold module_step, bms_value.
  destruct (call_result _ _) as [r | e]; simpl.
  - destruct (points_value r) as [bms | e]; simpl.
    + rewrite discover_module_run. simpl.
      destruct (String.eqb _ _); simpl.
      * destruct (discovered bms) as [[s |] |]; simpl;
          eauto using with_sn_module_same.
      * eauto using with_sn_module_same.
    + destruct (String.eqb _ _); simpl; eauto using with_sn_module_same.
  - destruct (String.eqb _ _); simpl; eauto using with_sn_module_same.
Qed.

Lemma fetch_dongle_spec :
  exists w',
    fetch_dongle env result w
    = ((let? g := section_value (call_result path_realtime (net env n))
                    dongle_value (PDict []) in
        Ok (<["dongle" := g]> result)), w')
    /\ sent w' = sent w ++ [request_at env me n path_realtime
                              (device_body (sn_dongle me))]
    /\ self w' = me.
Proof.
  rewrite fetch_dongle_run. subst n me. unfold dongle_value.
  destruct (call_result _ _) as [r | e]; simpl.
  - destruct (points_value r); eauto.
  - eauto.
Qed.

End Blocks.

(** One cycle: its result, the module serial it leaves, and the requests it
    makes when it runs to its end. *)
Lemma get_all_data_spec env w :
  exists w',
    get_all_data env w
    = (snapshot_of (String.eqb (sn_module (self w)) "")
         (call_at env w 0 path_detail) (call_at env w 1 path_power)
         (call_at env w 2 path_realtime) (call_at env w 3 path_realtime), w')
    /\ self w'
       = with_sn_module
           (module_after (sn_module (self w))
              (call_at env w 0 path_detail) (call_at env w 1 path_power)
              (call_at env w 2 path_realtime)) (self w)
    /\ (is_ok (fst (get_all_data env w)) ->
        sent w' = sent w ++ cycle_requests env w).
Proof.
  unfold get_all_data, bind, snapshot_of, module_after, call_at,
    cycle_requests.
  cbn [Nat.add].
  destruct (fetch_device_spec env ∅ w) as (w1 & -> & Hs1 & Hm1).
  assert (length (sent w1) = S (length (sent w))) as Hl1
    by (rewrite Hs1, length_app; simpl; lia).
  destruct (section_value _ device_value _) as [d | e]; simpl;
    [| exists w1; rewrite Hm1; by destruct (self w)].
  destruct (fetch_power_spec env (<["device" := d]> ∅) w1)
    as (w2 & -> & Hs2 & Hm2).
  rewrite ?Hl1, ?Hm1. rewrite ?Hl1, ?Hm1, Hs1 in Hs2. rewrite ?Hl1, ?Hm1 in Hm2.
  assert (length (sent w2) = S (S (length (sent w)))) as Hl2
    by (rewrite Hs2, !length_app; simpl; lia).
  destruct (section_value _ power_value _) as [p | e]; simpl;
    [| exists w2; rewrite Hm2; by destruct (self w)].
  destruct (fetch_bms_spec env (<["power" := p]> (<["device" := d]> ∅)) w2)
    as (w3 & -> & Hs3 & Hm3).
  rewrite ?Hl2, ?Hm2. rewrite ?Hl2, ?Hm2, Hs2 in Hs3. rewrite ?Hl2, ?Hm2 in Hm3.
  assert (length (sent w3) = S (S (S (length (sent w))))) as Hl3
    by (rewrite Hs3, !length_app; simpl; lia).
  destruct (section_value _ (bms_value _) _) as [b | e]; simpl;
    [| exists w3; by rewrite Hm3].
  destruct (fetch_dongle_spec env
              (<["bms" := b]> (<["power" := p]> (<["device" := d]> ∅))) w3)
    as (w4 & -> & Hs4 & Hm4).
  rewrite ?Hl3, ?Hm3. rewrite ?Hl3, ?Hm3, Hs3 in Hs4. rewrite ?Hl3, ?Hm3 in Hm4.
  destruct (section_value _ dongle_value _) as [g | e]; simpl;
    [| exists w4; by rewrite Hm4].
  exists w4. rewrite Hm4, Hs4. by rewrite <- !app_assoc.
Qed.

Lemma get_all_data_result env w :
  fst (get_all_data env w)
  = snapshot_of (String.eqb (sn_module (self w)) "")
      (call_at env w 0 path_detail) (call_at env w 1 path_power)
      (call_at env w 2 path_realtime) (call_at env w 3 path_realtime).
Proof. by destruct (get_all_data_spec env w) as (w' & -> & _). Qed.

Lemma get_all_data_module env w :
  sn_module (self (snd (get_all_data env w)))
  = module_after (sn_module (self w))
      (call_at env w 0 path_detail) (call_at env w 1 path_power)
      (call_at env w 2 path_realtime).
Proof.
  destruct (get_all_data_spec env w) as (w' & Heq & Hm & _).
  rewrite Heq. simpl. by rewrite Hm.
Qed.

Lemma get_all_data_sent env w :
  is_ok (fst (get_all_data env w)) ->
  sent (snd (get_all_data env w)) = sent w ++ cycle_requests env w.
Proof.
  intros H. destruct (get_all_data_spec env w) as (w' & Heq & _ & Hs).
  rewrite Heq in *. auto.
Qed.

(** ** Payloads of the expected shape are processed without an exception *)

Lemma call_result_data path o r :
  call_result path o = Ok r -> Py.get r "data" PNone = Ok (data_of r).
Proof. intros H. by destruct (call_result_dict _ _ _ H) as (items & -> & _). Qed.

Lemma iter_list_or_empty data :
  list_or_empty data = true ->
  Py.iter (Py.or_ data (PList [])) = Ok (entries_of data).
Proof.
  unfold list_or_empty, Py.or_.
  destruct (Py.truthy data) eqn:Ht; simpl.
  - by destruct data.
  - intros _. destruct data; try done. by destruct xs.
Qed.

Lemma power_records_filter xs :
  forallb is_record xs = true ->
  power_records xs
  = Ok (List.filter
          (fun x => match Py.get x "realTimePower" PNone with
                    | Ok PNone | Raise _ => false
                    | Ok _ => true
                    end) xs).
Proof.
  induction xs as [| x xs IH]; simpl; [done |].
  intros [Hx Hxs]%andb_prop. rewrite (IH Hxs).
  destruct x as [| | | | | | items]; try done. simpl.
  by destruct (Py.lookup (KStr "realTimePower") items) as [[] |].
Qed.

Lemma points_dict_total ps acc :
  forallb point_ok ps = true -> is_ok (points_dict ps acc).
Proof.
  revert acc. induction ps as [| p ps IH]; intros acc; simpl; [done |].
  intros [Hp Hps]%andb_prop.
  destruct p as [| | | | | | items]; try done. simpl in *.
  destruct (Py.lookup (KStr "pointId") items) as [k |]; [| done].
  destruct (Py.lookup (KStr "pointValue") items) as [v |];
    [| by destruct k].
  destruct k; simpl; try done; by apply IH.
Qed.

Lemma key_eqb_str_r k s : Py.key_eqb k (KStr s) = true -> k = KStr s.
Proof.
  destruct k as [| [] | | |]; simpl; try done.
  by intros ->%String.eqb_eq.
Qed.

Lemma key_eqb_str_l k s : Py.key_eqb (KStr s) k = true -> k = KStr s.
Proof.
  destruct k as [| [] | | |]; simpl; try done.
  by intros ->%String.eqb_eq.
Qed.

Lemma key_eqb_str_refl s : Py.key_eqb (KStr s) (KStr s) = true.
Proof. simpl. apply String.eqb_refl. Qed.

(** reading a text key after a store *)
Lemma lookup_store_str s key v acc :
  Py.lookup (KStr s) (Py.store key v acc)
  = if Py.key_eqb key (KStr s) then Some v else Py.lookup (KStr s) acc.
Proof.
  induction acc as [| [k' v'] acc IH]; simpl; [done |].
  destruct (Py.key_eqb k' key) eqn:Hk; simpl.
  - destruct (Py.key_eqb k' (KStr s)) eqn:Hs.
    + apply key_eqb_str_r in Hs as ->.
      apply key_eqb_str_l in Hk as ->. by rewrite key_eqb_str_refl.
    + destruct (Py.key_eqb key (KStr s)) eqn:Hs'; [| done].
      apply key_eqb_str_r in Hs' as ->. congruence.
  - rewrite IH.
    destruct (Py.key_eqb k' (KStr s)) eqn:Hs; [| done].
    apply key_eqb_str_r in Hs as ->.
    destruct (Py.key_eqb key (KStr s)) eqn:Hs'; [| done].
    apply key_eqb_str_r in Hs' as ->. by rewrite key_eqb_str_refl in Hk.
Qed.

Lemma points_dict_sub ps acc bms :
  points_dict ps acc = Ok bms ->
  forallb sub_point_ok ps = true ->
  sub_text acc = true -> sub_text bms = true.
Proof.
  revert acc. induction ps as [| p ps IH]; intros acc; simpl.
  - by intros [= ->].
  - intros Hd [Hp Hps]%andb_prop Hacc.
    destruct (Py.getitem p "pointId") as [k |] eqn:Hk; simpl in Hd; [| done].
    destruct (Py.getitem p "pointValue") as [v |] eqn:Hv; simpl in Hd;
      [| done].
    destruct (Py.to_key k) as [key |] eqn:Hkey; simpl in Hd; [| done].
    apply (IH _ Hd Hps).
    unfold sub_text. rewrite lookup_store_str.
    destruct (Py.key_eqb key (KStr "SUB")) eqn:Hs; [| done].
    apply key_eqb_str_r in Hs as ->.
    destruct p as [| | | | | | items]; try done. simpl in *.
    destruct (Py.lookup (KStr "pointId") items) as [k' |]; [| done].
    injection Hk as ->.
    destruct (Py.lookup (KStr "pointValue") items) as [v' |]; [| done].
    injection Hv as ->.
    destruct k; try done. by injection Hkey as ->.
Qed.

Lemma discovered_text bms :
  sub_text bms = true ->
  exists sub,
    default (PStr "") (Py.lookup (KStr "SUB") bms) = PStr sub
    /\ discovered bms
       = Ok (head (stripped_nonempty (Text.split ","%char sub))).
Proof.
  unfold sub_text, discovered. simpl.
  destruct (Py.lookup (KStr "SUB") bms) as [v |]; simpl.
  - destruct v; try done. eauto.
  - eauto.
Qed.

Lemma power_value_total path o r :
  call_result path o = Ok r ->
  history_ok (data_of r) = true -> is_ok (power_value r).
Proof.
  intros Hc [Hl Hr]%andb_prop. unfold power_value.
  rewrite (call_result_data _ _ _ Hc). simpl.
  rewrite (iter_list_or_empty _ Hl). simpl.
  by rewrite (power_records_filter _ Hr).
Qed.

Lemma points_value_total path o r :
  call_result path o = Ok r ->
  points_ok (data_of r) = true -> is_ok (points_value r).
Proof.
  intros Hc [Hl Hr]%andb_prop. unfold points_value.
  rewrite (call_result_data _ _ _ Hc). simpl.
  rewrite (iter_list_or_empty _ Hl). simpl.
  by apply points_dict_total.
Qed.

Lemma points_value_sub path o r bms :
  call_result path o = Ok r ->
  points_value r = Ok bms ->
  sub_ok (data_of r) = true -> sub_text bms = true.
Proof.
  intros Hc Hp Hs. unfold points_value in Hp.
  rewrite (call_result_data _ _ _ Hc) in Hp. simpl in Hp.
  destruct (Py.iter _) as [ps |] eqn:Hi; [| done]. simpl in Hp.
  apply (points_dict_sub _ _ _ Hp); [| done].
  unfold sub_ok in Hs. unfold Py.or_ in Hi.
  destruct (Py.truthy (data_of r)) eqn:Ht.
  - destruct (data_of r) eqn:Hd; simpl in Hi; try done.
    + injection Hi as <-. simpl in Hs.
      clear. induction (Text.chars s); simpl; [done | auto].
    + by injection Hi as <-.
    + injection Hi as <-. clear.
      induction items as [| [k x] items IH]; simpl; [done |].
      rewrite IH. by destruct k.
  - by injection Hi as <-.
Qed.

(** ** Failure isolation in [get_all_data] *)

Lemma snapshot_of_dom u c0 c1 c2 c3 snap :
  snapshot_of u c0 c1 c2 c3 = Ok snap -> dom snap = section_keys.
Proof.
  unfold snapshot_of, section_keys.
  destruct (section_value c0 _ _); simpl; [| done].
  destruct (section_value c1 _ _); simpl; [| done].
  destruct (section_value c2 _ _); simpl; [| done].
  destruct (section_value c3 _ _); simpl; [| done].
  intros [= <-]. rewrite !dom_insert_L, dom_empty_L. set_solver.
Qed.

Lemma snapshot_of_sections u c0 c1 c2 c3 snap :
  snapshot_of u c0 c1 c2 c3 = Ok snap ->
  exists d p b g,
    section_value c0 device_value (PDict []) = Ok d
    /\ section_value c1 power_value (PDict []) = Ok p
    /\ section_value c2 (bms_value u) (PDict []) = Ok b
    /\ section_value c3 dongle_value (PDict []) = Ok g
    /\ snap !! "device" = Some d /\ snap !! "power" = Some p
    /\ snap !! "bms" = Some b /\ snap !! "dongle" = Some g.
Proof.
  unfold snapshot_of.
  destruct (section_value c0 _ _) as [d |]; simpl; [| done].
  destruct (section_value c1 _ _) as [p |]; simpl; [| done].
  destruct (section_value c2 _ _) as [b |]; simpl; [| done].
  destruct (section_value c3 _ _) as [g |]; simpl; [| done].
  intros [= <-]. exists d, p, b, g. by repeat split.
Qed.

Lemma section_value_raise {A} c (value : pyval -> result A) empty e :
  section_value c value empty = Raise e ->
  exists r, c = Ok r /\ value r = Raise e.
Proof. destruct c as [r |]; simpl; [eauto | done]. Qed.

Lemma device_value_class r e :
  device_value r = Raise e -> builtin_class (exn_class e).
Proof. intros H. left. eauto using py_get_class. Qed.

Lemma bms_value_class u r e :
  bms_value u r = Raise e -> builtin_class (exn_class e).
Proof.
  unfold bms_value.
  destruct (points_value r) as [bms |] eqn:Hp; simpl;
    [| intros [= <-]; eauto using points_value_class].
  destruct u; [| done].
  destruct (discovered bms) eqn:Hd; simpl; [done |].
  intros [= <-]. left. eauto using discovered_class.
Qed.

Lemma dongle_value_class r e :
  dongle_value r = Raise e -> builtin_class (exn_class e).
Proof.
  unfold dongle_value.
  destruct (points_value r) eqn:Hp; simpl; [done |].
  intros [= <-]. eauto using points_value_class.
Qed.

Lemma snapshot_of_raise u c0 c1 c2 c3 e :
  snapshot_of u c0 c1 c2 c3 = Raise e -> builtin_class (exn_class e).
Proof.
  unfold snapshot_of.
  destruct (section_value c0 _ _) eqn:H0; simpl.
  2: { intros [= <-]. apply section_value_raise in H0 as (r & _ & H).
       eauto using device_value_class. }
  destruct (section_value c1 _ _) eqn:H1; simpl.
  2: { intros [= <-]. apply section_value_raise in H1 as (r & _ & H).
       eauto using power_value_class. }
  destruct (section_value c2 _ _) eqn:H2; simpl.
  2: { intros [= <-]. apply section_value_raise in H2 as (r & _ & H).
       eauto using bms_value_class. }
  destruct (section_value c3 _ _) eqn:H3; simpl; [done |].
  intros [= <-]. apply section_value_raise in H3 as (r & _ & H).
  eauto using dongle_value_class.
Qed.

Lemma section_value_failed {A} c (value : pyval -> result A) empty :
  ~ is_ok c -> section_value c value empty = Ok empty.
Proof. by destruct c. Qed.

Lemma section_value_fits {A} path o (value : pyval -> result A) empty shape :
  (forall r, call_result path o = Ok r ->
             shape (data_of r) = true -> is_ok (value r)) ->
  fits shape (call_result path o) = true ->
  is_ok (section_value (call_result path o) value empty).
Proof.
  intros Hv. unfold fits, section_value.
  destruct (call_result path o) as [r |] eqn:Hc; [| done]. eauto.
Qed.

Lemma bms_value_total path o u r :
  call_result path o = Ok r ->
  points_ok (data_of r) = true -> sub_ok (data_of r) = true ->
  is_ok (bms_value u r).
Proof.
  intros Hc Hp Hs. unfold bms_value.
  pose proof (points_value_total _ _ _ Hc Hp) as Ht.
  destruct (points_value r) as [bms |] eqn:Hv; [| done]. simpl.
  destruct u; [| done].
  destruct (discovered_text bms (points_value_sub _ _ _ _ Hc Hv Hs))
    as (sub & _ & ->).
  done.
Qed.

Lemma dongle_value_total path o r :
  call_result path o = Ok r ->
  points_ok (data_of r) = true -> is_ok (dongle_value r).
Proof.
  intros Hc Hp. unfold dongle_value.
  pose proof (points_value_total _ _ _ Hc Hp) as Ht.
  by destruct (points_value r).
Qed.

(** the device block runs through, and so does the power block on a history *)
Lemma device_block_runs env w :
  is_ok (section_value (call_at env w 0 path_detail) device_value (PDict [])).
Proof.
  unfold section_value.
  destruct (call_at env w 0 path_detail) as [r |] eqn:Hc; [| done].
  by destruct (call_result_dict _ _ _ Hc) as (items & -> & _).
Qed.

Lemma power_block_runs env w :
  fits history_ok (call_at env w 1 path_power) = true ->
  is_ok (section_value (call_at env w 1 path_power) power_value (PDict [])).
Proof.
  intros H. apply (section_value_fits _ _ _ _ history_ok); [| done].
  eauto using power_value_total.
Qed.

(** the blocks before the BMS block run through *)
Ltac run_early_blocks env w H1 :=
  let Hd := fresh "Hdevice" in
  let Hp := fresh "Hpower" in
  pose proof (device_block_runs env w) as Hd;
  destruct (section_value (call_at env w 0 _) _ _); [| done]; clear Hd;
  pose proof (power_block_runs env w H1) as Hp;
  destruct (section_value (call_at env w 1 _) _ _); [| done]; clear Hp.

(** a cycle returns when every successful call has a payload of the shape
    its block expects *)
Lemma get_all_data_returns env w :
  fits history_ok (call_at env w 1 path_power) = true ->
  fits points_ok (call_at env w 2 path_realtime) = true ->
  fits sub_ok (call_at env w 2 path_realtime) = true ->
  fits points_ok (call_at env w 3 path_realtime) = true ->
  is_ok (fst (get_all_data env w)).
Proof.
  intros H1 H2 Hs H3. rewrite get_all_data_result. unfold snapshot_of.
  run_early_blocks env w H1. simpl.
  assert (is_ok (section_value (call_at env w 2 path_realtime)
                   (bms_value (String.eqb (sn_module (self w)) ""))
                   (PDict []))) as Hb.
  { unfold section_value, fits, call_at in *.
    destruct (call_result path_realtime (net env (2 + _))) eqn:Hc;
      [| done].
    eauto using bms_value_total. }
  destruct (section_value (call_at env w 2 _) _ _); [| done]. simpl.
  assert (is_ok (section_value (call_at env w 3 path_realtime) dongle_value
                   (PDict []))) as Hg.
  { apply (section_value_fits _ _ _ _ points_ok);
      eauto using dongle_value_total. }
  by destruct (section_value (call_at env w 3 _) _ _).
Qed.

(** in a returned snapshot, the key of a call that failed holds the empty map *)
Lemma failed_sections_empty env w snap :
  fst (get_all_data env w) = Ok snap ->
  (~ is_ok (call_at env w 0 path_detail) ->
   snap !! "device" = Some (PDict []))
  /\ (~ is_ok (call_at env w 1 path_power) ->
      snap !! "power" = Some (PDict []))
  /\ (~ is_ok (call_at env w 2 path_realtime) ->
      snap !! "bms" = Some (PDict []))
  /\ (~ is_ok (call_at env w 3 path_realtime) ->
      snap !! "dongle" = Some (PDict [])).
Proof.
  rewrite get_all_data_result. intros Hsnap.
  apply snapshot_of_sections in Hsnap
    as (d & p & b & g & Hd & Hp & Hb & Hg & -> & -> & -> & ->).
  repeat split; intros Hf;
    rewrite section_value_failed in * by done; congruence.
Qed.

(** C1, as amended.  A cycle never lets an API error out.  When it returns,
    the snapshot has exactly the keys device, power, bms and dongle, the four
    requests have all gone out, and each key whose call failed is bound to the
    empty map.  It returns whenever every call that succeeds carries a payload
    of the shape its block expects: any value under device, a list of records
    (or nothing) as power history, lists of point records (or nothing) as
    real-time points, and a text under the SUB point. *)
Theorem get_all_data_isolates_failures env w :
  let c0 := call_at env w 0 path_detail in
  let c1 := call_at env w 1 path_power in
  let c2 := call_at env w 2 path_realtime in
  let c3 := call_at env w 3 path_realtime in
  let out := get_all_data env w in
  (forall e, fst out = Raise e -> is_api_error e = false)
  /\ (forall snap, fst out = Ok snap ->
        dom snap = section_keys
        /\ sent (snd out) = sent w ++ cycle_requests env w
        /\ (~ is_ok c0 -> snap !! "device" = Some (PDict []))
        /\ (~ is_ok c1 -> snap !! "power" = Some (PDict []))
        /\ (~ is_ok c2 -> snap !! "bms" = Some (PDict []))
        /\ (~ is_ok c3 -> snap !! "dongle" = Some (PDict [])))
  /\ (fits history_ok c1 = true ->
      fits points_ok c2 = true -> fits sub_ok c2 = true ->
      fits points_ok c3 = true ->
      is_ok (fst out)).
Proof.
  intros c0 c1 c2 c3 out.
  assert (fst out
          = snapshot_of (String.eqb (sn_module (self w)) "") c0 c1 c2 c3)
    as Hout by apply get_all_data_result.
  split; [| split].
  - intros e He. rewrite Hout in He.
    apply builtin_not_api. eauto using snapshot_of_raise.
  - intros snap Hsnap. split; [| split].
    + rewrite Hout in Hsnap. eauto using snapshot_of_dom.
    + apply get_all_data_sent. fold out. by rewrite Hsnap.
    + by apply failed_sections_empty.
  - intros H1 H2 Hs H3. by apply get_all_data_returns.
Qed.

(** ** The power section *)

Lemma last_filter_latest (f : pyval -> bool) xs d :
  match List.filter f xs with
  | [] => forall y, y ∈ xs -> f y = false
  | l =>
      exists i,
        xs !! i = Some (List.last l d) /\ f (List.last l d) = true
        /\ forall j y, (i < j)%nat -> xs !! j = Some y -> f y = false
  end.
Proof.
  induction xs as [| x xs IH]; simpl.
  - intros y Hy. by apply elem_of_nil in Hy.
  - destruct (List.filter f xs) as [| z l] eqn:Hl.
    + destruct (f x) eqn:Hx.
      * exists 0%nat. repeat split; [done |].
        intros [| j] y Hj Hy; [lia |].
        apply IH. eapply list_elem_of_lookup_2. exact Hy.
      * intros y [-> | Hy]%elem_of_cons; auto.
    + destruct IH as (i & Hi & Hf & Hlater).
      assert (exists i',
                 (x :: xs) !! i' = Some (List.last (z :: l) d)
                 /\ f (List.last (z :: l) d) = true
                 /\ forall j y, (i' < j)%nat -> (x :: xs) !! j = Some y ->
                                f y = false) as Hgoal.
      { exists (S i). repeat split; [done | done |].
        intros [| j] y Hj Hy; [lia |]. apply (Hlater j); [lia | done]. }
      by destruct (f x).
Qed.

(** the records kept are the entries with a usable realTimePower, whenever
    every entry could be asked for it *)
Lemma power_records_kept xs records :
  power_records xs = Ok records -> records = List.filter has_power xs.
Proof.
  revert records. induction xs as [| x xs IH]; intros records; simpl.
  - by intros [= <-].
  - unfold has_power at 1.
    destruct (Py.get x "realTimePower" PNone) as [p |]; simpl; [| done].
    destruct (power_records xs) as [rest |]; simpl; [| done].
    intros [= <-]. rewrite (IH rest eq_refl). by destruct p.
Qed.

(** what is iterated and filtered without an exception is the list of
    entries: a mapping or a text that is not empty makes the filter raise *)
Lemma iterated_entries data xs records :
  Py.iter (Py.or_ data (PList [])) = Ok xs ->
  power_records xs = Ok records ->
  xs = entries_of data.
Proof.
  unfold Py.or_. destruct (Py.truthy data) eqn:Ht.
  - destruct data as [| | | | s | l | items]; simpl; try done.
    + intros [= <-]. by destruct (Text.chars s).
    + by intros [= <-].
    + intros [= <-]. destruct items as [| [k v] items]; [done |].
      by destruct k.
  - intros [= <-] _. destruct data as [| | | | | l |]; try done.
    by destruct l.
Qed.

Lemma power_value_latest path o r p :
  call_result path o = Ok r ->
  power_value r = Ok p -> latest_power (entries_of (data_of r)) p.
Proof.
  intros Hc. unfold power_value.
  rewrite (call_result_data _ _ _ Hc). simpl.
  destruct (Py.iter _) as [xs |] eqn:Hi; simpl; [| done].
  destruct (power_records xs) as [records |] eqn:Hr; simpl; [| done].
  rewrite <- (iterated_entries _ _ _ Hi Hr).
  rewrite (power_records_kept _ _ Hr).
  pose proof (last_filter_latest has_power xs PNone) as H.
  destruct (List.filter has_power xs) as [| z l].
  - intros [= <-]. right. auto.
  - intros [= <-]. left. done.
Qed.

(** C4.  When the power call succeeds, the power section of a returned
    snapshot is the last entry of the list under data whose realTimePower is
    present and not null, and the empty map when no entry qualifies, which
    covers the empty list and null.  The snapshot is returned whenever the
    history is a list of records, or nothing, and the two later calls fail or
    carry point records.  For the history null, 5, null the entry with 5 is
    chosen. *)
Theorem power_is_latest_usable_entry env w r :
  call_at env w 1 path_power = Ok r ->
  (forall snap, fst (get_all_data env w) = Ok snap ->
     exists p, snap !! "power" = Some p
               /\ latest_power (entries_of (data_of r)) p)
  /\ (history_ok (data_of r) = true ->
      fits points_ok (call_at env w 2 path_realtime) = true ->
      fits sub_ok (call_at env w 2 path_realtime) = true ->
      fits points_ok (call_at env w 3 path_realtime) = true ->
      is_ok (fst (get_all_data env w)))
  /\ (entries_of (data_of r) = [] ->
      forall snap, fst (get_all_data env w) = Ok snap ->
                   snap !! "power" = Some (PDict []))
  /\ (data_of r = PList history_example ->
      forall snap, fst (get_all_data env w) = Ok snap ->
                   snap !! "power" = Some (power_entry (PInt 5))).
Proof.
  intros Hc.
  assert (forall snap, fst (get_all_data env w) = Ok snap ->
            exists p, snap !! "power" = Some p /\ power_value r = Ok p)
    as Hpower.
  { intros snap Hsnap. rewrite get_all_data_result in Hsnap.
    apply snapshot_of_sections in Hsnap
      as (d & p & b & g & _ & Hp & _ & _ & _ & Hl & _).
    rewrite Hc in Hp. eauto. }
  split; [| split; [| split]].
  - intros snap (p & Hl & Hp)%Hpower.
    exists p. split; [done |]. unfold call_at in Hc.
    eauto using power_value_latest.
  - intros Hh H2 Hs H3. apply get_all_data_returns; try done.
    by rewrite Hc.
  - intros Hnil snap (p & -> & Hp)%Hpower. f_equal.
    unfold call_at in Hc.
    destruct (power_value_latest _ _ _ _ Hc Hp)
      as [(i & Hi & _) | [-> _]]; [| done].
    rewrite Hnil in Hi. by rewrite lookup_nil in Hi.
  - intros Hdata snap (p & -> & Hp)%Hpower. f_equal.
    unfold power_value in Hp.
    rewrite (call_result_data _ _ _ Hc), Hdata in Hp.
    by injection Hp as <-.
Qed.

(** ** Module-serial discovery *)

Lemma get_all_data_no_api_error env w e :
  fst (get_all_data env w) = Raise e -> is_api_error e = false.
Proof.
  rewrite get_all_data_result. intros H.
  apply builtin_not_api. eauto using snapshot_of_raise.
Qed.

(** the coordinator's [except] clause never fires *)
Lemma update_data_is_get_all_data env w :
  _async_update_data env w = get_all_data env w.
Proof.
  unfold _async_update_data, try_except_api.
  pose proof (get_all_data_no_api_error env w) as H.
  destruct (get_all_data env w) as [[snap | e] w']; [done |].
  by rewrite (H e eq_refl).
Qed.

Lemma stripped_nonempty_filter pieces :
  stripped_nonempty pieces
  = List.filter (fun t => negb (String.eqb t "")) (map Text.strip pieces).
Proof.
  unfold stripped_nonempty.
  induction pieces as [| s pieces IH]; [done |].
  cbn [List.filter map].
  change (Py.truthy (PStr (Text.strip s)))
    with (negb (String.eqb (Text.strip s) "")).
  destruct (negb (String.eqb (Text.strip s) "")); cbn [map]; by rewrite IH.
Qed.

Lemma first_token_head sub :
  first_token sub
  = default "" (head (stripped_nonempty (Text.split ","%char sub))).
Proof. unfold first_token. by rewrite stripped_nonempty_filter. Qed.

Lemma head_filter_nonempty (l : list string) s :
  head (List.filter (fun t => negb (String.eqb t "")) l) = Some s -> s <> "".
Proof.
  induction l as [| t l IH]; simpl; [done |].
  destruct (String.eqb t "") eqn:Ht; simpl; [done |].
  intros [= <-]. by apply String.eqb_neq.
Qed.

Lemma discovered_nonempty bms s : discovered bms = Ok (Some s) -> s <> "".
Proof.
  unfold discovered. simpl.
  destruct (split_comma _) as [pieces |]; simpl; [| done].
  rewrite stripped_nonempty_filter. intros [= H].
  eauto using head_filter_nonempty.
Qed.

Lemma module_step_set current c : current <> "" -> module_step current c = current.
Proof.
  intros H%String.eqb_neq. unfold module_step. by rewrite H.
Qed.

Lemma module_step_changes current c :
  module_step current c <> current ->
  current = "" /\ module_step current c <> "".
Proof.
  unfold module_step.
  destruct (String.eqb current "") eqn:Hc; simpl; [| done].
  apply String.eqb_eq in Hc as ->.
  destruct c as [r |]; [| done].
  destruct (points_value r) as [bms |]; [| done].
  by destruct (discovered bms) as [[s |] |].
Qed.

Lemma module_after_changes current c0 c1 c2 :
  module_after current c0 c1 c2 <> current ->
  current = "" /\ module_after current c0 c1 c2 <> "".
Proof.
  unfold module_after.
  destruct (section_value c0 _ _); [| done].
  destruct (section_value c1 _ _); [| done].
  apply module_step_changes.
Qed.

(** a serial that changes is the first token of the SUB text just received *)
Lemma discovered_first_token bms s :
  discovered bms = Ok (Some s) ->
  exists sub,
    default (PStr "") (Py.lookup (KStr "SUB") bms) = PStr sub
    /\ s = first_token sub.
Proof.
  unfold discovered. simpl.
  destruct (Py.lookup (KStr "SUB") bms) as [v |]; simpl.
  - destruct v as [| | | | sub | |]; simpl; try done.
    intros [= Hhead]. exists sub. split; [done |].
    by rewrite first_token_head, Hhead.
  - by intros [=].
Qed.

Lemma module_after_source current c0 c1 c2 :
  module_after current c0 c1 c2 <> current ->
  exists r bms sub,
    c2 = Ok r /\ points_value r = Ok bms
    /\ default (PStr "") (Py.lookup (KStr "SUB") bms) = PStr sub
    /\ module_after current c0 c1 c2 = first_token sub.
Proof.
  unfold module_after, module_step.
  destruct (section_value c0 _ _); [| done].
  destruct (section_value c1 _ _); [| done].
  destruct (negb _); [done |].
  destruct c2 as [r |]; [| done].
  destruct (points_value r) as [bms |] eqn:Hp; [| done].
  destruct (discovered bms) as [[s |] |] eqn:Hd; try done.
  intros _. destruct (discovered_first_token _ _ Hd) as (sub & Hsub & ->).
  by exists r, bms, sub.
Qed.

Lemma get_all_data_module_changes env w :
  sn_module (self (snd (get_all_data env w))) <> sn_module (self w) ->
  sn_module (self w) = ""
  /\ sn_module (self (snd (get_all_data env w))) <> "".
Proof. rewrite get_all_data_module. apply module_after_changes. Qed.

Lemma poll_keeps_module env cycles w :
  sn_module (self w) <> "" ->
  sn_module (self (poll env cycles w)) = sn_module (self w).
Proof.
  revert w. induction cycles as [| k IH]; intros w Hset; simpl; [done |].
  rewrite update_data_is_get_all_data.
  assert (sn_module (self (snd (get_all_data env w))) = sn_module (self w))
    as Heq.
  { destruct (decide (sn_module (self (snd (get_all_data env w)))
                      = sn_module (self w))) as [| Hne]; [done |].
    by destruct (get_all_data_module_changes env w Hne). }
  rewrite IH; [done | by rewrite Heq].
Qed.

(** C5.  Discovery of the module serial is write-once.  A serial that is set
    is left alone by a cycle, and by any number of polling rounds, whatever
    SUB values arrive; a cycle changes the serial only from empty to a
    non-empty text, the first token of the SUB text of its BMS points.  When
    the serial is empty and the BMS call succeeds with points whose SUB value
    is the text [sub] (the empty text when there is no SUB point), the serial
    becomes the first comma-separated token of [sub] after trimming and
    dropping empty tokens, and stays empty when no token is left; for the
    value with ABC123 and DEF456 of the specification that token is ABC123. *)
Theorem module_serial_write_once env w :
  (sn_module (self w) <> "" ->
   sn_module (self (snd (get_all_data env w))) = sn_module (self w)
   /\ forall cycles,
        sn_module (self (poll env cycles w)) = sn_module (self w))
  /\ (sn_module (self (snd (get_all_data env w))) <> sn_module (self w) ->
      sn_module (self w) = ""
      /\ sn_module (self (snd (get_all_data env w))) <> ""
      /\ exists r bms sub,
           call_at env w 2 path_realtime = Ok r
           /\ points_value r = Ok bms
           /\ default (PStr "") (Py.lookup (KStr "SUB") bms) = PStr sub
           /\ sn_module (self (snd (get_all_data env w))) = first_token sub)
  /\ (forall r bms sub,
        sn_module (self w) = "" ->
        fits history_ok (call_at env w 1 path_power) = true ->
        call_at env w 2 path_realtime = Ok r ->
        points_value r = Ok bms ->
        default (PStr "") (Py.lookup (KStr "SUB") bms) = PStr sub ->
        sn_module (self (snd (get_all_data env w))) = first_token sub)
  /\ first_token " ABC123 , DEF456" = "ABC123".
Proof.
  split; [| split; [| split]].
  - intros Hset. split; [| intros cycles; by apply poll_keeps_module].
    rewrite get_all_data_module. unfold module_after.
    destruct (section_value _ _ _); [| done].
    destruct (section_value _ _ _); [| done].
    by apply module_step_set.
  - intros Hne.
    destruct (get_all_data_module_changes env w Hne) as (Hempty & Hset).
    split; [done |]. split; [done |].
    rewrite get_all_data_module in *. by apply module_after_source.
  - intros r bms sub Hempty H1 Hc Hp Hsub.
    rewrite get_all_data_module. unfold module_after.
    run_early_blocks env w H1. simpl.
    unfold module_step. rewrite Hempty, Hc, Hp. simpl.
    rewrite first_token_head. unfold discovered. simpl.
    change (match Py.lookup (KStr "SUB") bms with
            | Some x => x
            | None => PStr ""
            end) with (default (PStr "") (Py.lookup (KStr "SUB") bms)).
    rewrite Hsub. simpl.
    by destruct (stripped_nonempty _).
  - by vm_compute.
Qed.

(** ** Payloads the post-processing cannot digest *)

Lemma points_dict_app good rest acc :
  forallb point_ok good = true ->
  exists acc', points_dict (good ++ rest) acc = points_dict rest acc'.
Proof.
  revert acc. induction good as [| p good IH]; intros acc; simpl; [eauto |].
  intros [Hp Hgood]%andb_prop.
  destruct p as [| | | | | | items]; try done. simpl in *.
  destruct (Py.lookup (KStr "pointId") items) as [k |]; [| done].
  destruct (Py.lookup (KStr "pointValue") items) as [v |];
    [| by destruct k].
  destruct k; simpl; try done; by apply IH.
Qed.

Lemma points_value_list path o r ps :
  call_result path o = Ok r -> data_of r = PList ps ->
  points_value r = points_dict ps [].
Proof.
  intros Hc Hd. unfold points_value.
  rewrite (call_result_data _ _ _ Hc), Hd. simpl. by destruct ps.
Qed.

(** what escapes the BMS block escapes the cycle, when the blocks before it
    run through *)
Lemma bms_block_raises env w r e :
  fits history_ok (call_at env w 1 path_power) = true ->
  call_at env w 2 path_realtime = Ok r ->
  bms_value (String.eqb (sn_module (self w)) "") r = Raise e ->
  fst (get_all_data env w) = Raise e.
Proof.
  intros H1 Hc Hb. rewrite get_all_data_result. unfold snapshot_of.
  run_early_blocks env w H1. simpl.
  rewrite Hc. simpl. by rewrite Hb.
Qed.

(** C9.  The blocks of a cycle turn only API errors into empty sections: a
    key whose call failed holds the empty map, and what leaves the cycle is
    never an API error but an AttributeError, KeyError or TypeError of the
    post-processing, which the coordinator's update passes on unchanged, the
    update being the cycle itself.  With
    the blocks before it run through, a successful BMS call whose list holds,
    after well-formed points, a record without pointId or without pointValue
    ends the cycle in a KeyError, and a SUB value that is not a text, met while
    the module serial is empty, ends it in an AttributeError; no snapshot is
    returned. *)
Theorem malformed_payload_escapes env w :
  _async_update_data env w = get_all_data env w
  /\ (forall e, fst (get_all_data env w) = Raise e ->
                is_api_error e = false
                /\ (exn_class e = AttributeError \/ exn_class e = KeyError
                    \/ exn_class e = TypeError))
  /\ (forall snap, fst (get_all_data env w) = Ok snap ->
        (~ is_ok (call_at env w 0 path_detail) ->
         snap !! "device" = Some (PDict []))
        /\ (~ is_ok (call_at env w 1 path_power) ->
            snap !! "power" = Some (PDict []))
        /\ (~ is_ok (call_at env w 2 path_realtime) ->
            snap !! "bms" = Some (PDict []))
        /\ (~ is_ok (call_at env w 3 path_realtime) ->
            snap !! "dongle" = Some (PDict [])))
  /\ (forall r ps good items rest,
        fits history_ok (call_at env w 1 path_power) = true ->
        call_at env w 2 path_realtime = Ok r ->
        data_of r = PList ps ->
        ps = good ++ PDict items :: rest ->
        forallb point_ok good = true ->
        (Py.lookup (KStr "pointId") items = None ->
         fst (get_all_data env w) = Raise (Exn KeyError "'pointId'" None))
        /\ (is_Some (Py.lookup (KStr "pointId") items) ->
            Py.lookup (KStr "pointValue") items = None ->
            fst (get_all_data env w)
            = Raise (Exn KeyError "'pointValue'" None)))
  /\ (forall r bms v,
        fits history_ok (call_at env w 1 path_power) = true ->
        call_at env w 2 path_realtime = Ok r ->
        points_value r = Ok bms ->
        sn_module (self w) = "" ->
        Py.lookup (KStr "SUB") bms = Some v ->
        is_str v = false ->
        fst (get_all_data env w)
        = Raise (Exn AttributeError
                   ("'" +:+ Py.type_name v
                        +:+ "' object has no attribute 'split'") None)).
Proof.
  split; [apply update_data_is_get_all_data |].
  split.
  { intros e He. split; [by apply (get_all_data_no_api_error env w) |].
    rewrite get_all_data_result in He.
    exact (snapshot_of_raise _ _ _ _ _ _ He). }
  split; [apply failed_sections_empty |].
  split.
  - intros r ps good items rest H1 Hc Hd -> Hgood.
    unfold call_at in Hc.
    pose proof (points_value_list _ _ _ _ Hc Hd) as Hv.
    destruct (points_dict_app good (PDict items :: rest) [] Hgood)
      as (acc & Hacc).
    rewrite Hacc in Hv. simpl in Hv.
    split.
    + intros Hid. apply (bms_block_raises _ _ r); [done | done |].
      unfold bms_value. rewrite Hv, Hid. reflexivity.
    + intros [k Hid] Hval. apply (bms_block_raises _ _ r); [done | done |].
      unfold bms_value. rewrite Hv, Hid, Hval. reflexivity.
  - intros r bms v H1 Hc Hp Hempty Hsub Hv.
    apply (bms_block_raises _ _ r); [done | done |].
    unfold bms_value. rewrite Hp, Hempty. simpl.
    unfold discovered. simpl. rewrite Hsub.
    by destruct v.
Qed.

(** ** Classification of responses *)

Lemma is_success_iff code :
  is_success code = true <-> Py.str code = "0" \/ Py.str code = "200".
Proof.
  unfold is_success, success_codes. simpl.
  rewrite !orb_true_iff, !String.eqb_eq. intuition congruence.
Qed.

Lemma str_of_Z_inj z z' : Text.str_of_Z z = Text.str_of_Z z' -> z = z'.
Proof.
  unfold Text.str_of_Z. intros H.
  assert (forall x, NilZero.int_of_string (NilZero.string_of_int (Z.to_int x))
                    = Some (Z.to_int x)) as Hrt.
  { intros x. apply NilZero.isi; destruct x; simpl; try done;
      intros [= Hnil]; by apply DecimalPos.Unsigned.to_uint_nonnil in Hnil. }
  apply DecimalZ.to_int_inj.
  pose proof (Hrt z) as Hz. rewrite H, Hrt in Hz. congruence.
Qed.

(** the codes the client accepts, type by type *)
Lemma is_success_codes code :
  is_success code = true
  <-> match code with
      | PInt z => z = 0 \/ z = 200
      | PStr s | PFloat s => s = "0" \/ s = "200"
      | _ => False
      end.
Proof.
  rewrite is_success_iff.
  destruct code as [| [] | z | r | s | xs | items]; simpl; try tauto;
    try (split; [intros [H | H]; discriminate H | done]).
  change "0" with (Text.str_of_Z 0). change "200" with (Text.str_of_Z 200).
  split; intros [H | H]; auto using str_of_Z_inj; subst; auto.
Qed.

(** C3.  For every payload received, the call returns it exactly when it is
    an envelope whose code, turned into a string, is 0 or 200, so the number
    200 and the string 200 both succeed, as do the number and the string 0
    and no other number or string.  An envelope with any other code makes the
    call fail with an API error whose text carries the path, the code and the
    message; a payload that is no envelope at all has no code to show, and the
    call fails with the API error that wraps the failed access. *)
Theorem post_classifies_by_code env w path body data :
  net env (length (sent w)) = Body data ->
  let out := fst (_post env path body w) in
  let accepted code := Py.str code = "0" \/ Py.str code = "200" in
  (forall r, out = Ok r
             <-> r = data
                 /\ exists items, data = PDict items /\ accepted (code_of items))
  /\ (forall items,
        data = PDict items -> ~ accepted (code_of items) ->
        out = Raise (Exn DynessAPIError
                       (path +:+ " → code=" +:+ Py.str (code_of items)
                          +:+ " | " +:+ Py.str (info_of items)) None))
  /\ (forall z, accepted (PInt z) <-> z = 0 \/ z = 200)
  /\ (forall s, accepted (PStr s) <-> s = "0" \/ s = "200")
  /\ (is_record data = false ->
      out = Raise (Exn DynessAPIError
                     ("Request to " +:+ path +:+ " failed: '"
                        +:+ Py.type_name data
                        +:+ "' object has no attribute 'get'")
                     (Some (Py.no_attribute data "get")))).
Proof.
  intros Hnet out accepted. subst out. rewrite _post_run, Hnet.
  cbn [fst].
  assert (forall code, is_success code = true <-> accepted code) as Hs
    by apply is_success_iff.
  split; [| split; [| split; [| split]]].
  - intros r. destruct data as [| | | | | | items];
      try (split; [done | by intros (_ & items & ? & _)]).
    simpl. destruct (is_success (code_of items)) eqn:Hc.
    + split.
      * intros [= <-]. split; [done |]. exists items. split; [done |].
        by apply Hs.
      * by intros [-> _].
    + split; [done |]. intros (_ & items' & [= <-] & Ha).
      apply Hs in Ha. congruence.
  - intros items -> Ha. simpl.
    destruct (is_success (code_of items)) eqn:Hc; [| done].
    by apply Hs in Hc.
  - intros z. rewrite <- Hs. apply (is_success_codes (PInt z)).
  - intros s. rewrite <- Hs. apply (is_success_codes (PStr s)).
  - by destruct data.
Qed.

(** C7.  A fault of the transport, whatever its kind, reaches the caller as
    an API error that wraps the fault; so does a rejection by code; the call
    raises nothing but API errors, and it returns only an envelope that was
    received with an accepted code. *)
Theorem post_wraps_transport_faults env w path body :
  (forall f, net env (length (sent w)) = Fault f ->
     fst (_post env path body w)
     = Raise (Exn DynessAPIError
                ("Request to " +:+ path +:+ " failed: "
                   +:+ exn_str (fault_exn f)) (Some (fault_exn f))))
  /\ (forall items, net env (length (sent w)) = Body (PDict items) ->
        is_success (code_of items) = false ->
        exists text,
          fst (_post env path body w) = Raise (Exn DynessAPIError text None))
  /\ (forall e, fst (_post env path body w) = Raise e ->
                exn_class e = DynessAPIError)
  /\ (forall r, fst (_post env path body w) = Ok r ->
        exists items,
          r = PDict items /\ net env (length (sent w)) = Body r
          /\ is_success (code_of items) = true).
Proof.
  rewrite _post_run. simpl. repeat split.
  - by intros f ->.
  - intros items -> Hc. simpl. rewrite Hc. by eexists.
  - intros e He. apply call_result_api_error in He.
    unfold is_api_error in He. by destruct (exn_class e).
  - intros r Hr. destruct (call_result_dict _ _ _ Hr) as (items & -> & Ho).
    exists items. repeat split; [done |].
    rewrite Ho in Hr. simpl in Hr. by destruct (is_success _).
Qed.

(** ** [test_connection] *)

Lemma test_connection_run env w :
  test_connection env w
  = (let? r := call_result path_detail (net env (length (sent w))) in
     Py.get r "data" (PDict []),
     after_send (request_of env w path_detail
                   (device_body (sn_bms (self w)))) w).
Proof.
  unfold test_connection, bind, get_self, lift. rewrite _post_run.
  by destruct (call_result _ _).
Qed.

(** C8.  [test_connection] sends exactly one request, the device detail of
    the BMS serial; when the call succeeds it returns the data of the
    envelope, and when the call fails it raises the very error of the call.
    A response with code 1 and message invalid signature gives an error whose
    text shows both, which no success with empty data can be taken for. *)
Theorem test_connection_surfaces_failure env w :
  let n := length (sent w) in
  let req :=
    request_at env (self w) n path_detail (device_body (sn_bms (self w))) in
  sent (snd (test_connection env w)) = sent w ++ [req]
  /\ req_url req = base_url (self w) +:+ "/v1/device/household/storage/detail"
  /\ req_data req
     = "{" +:+ Text.json_string "deviceSn" +:+ ":"
           +:+ Text.json_string (sn_bms (self w)) +:+ "}"
  /\ (forall e, fst (_post env path_detail (device_body (sn_bms (self w))) w)
                = Raise e ->
                fst (test_connection env w) = Raise e
                /\ exn_class e = DynessAPIError)
  /\ (forall items,
        fst (_post env path_detail (device_body (sn_bms (self w))) w)
        = Ok (PDict items) ->
        fst (test_connection env w)
        = Ok (default (PDict []) (Py.lookup (KStr "data") items)))
  /\ (forall items,
        net env n = Body (PDict items) ->
        code_of items = PStr "1" ->
        info_of items = PStr "invalid signature" ->
        fst (test_connection env w)
        = Raise (Exn DynessAPIError
                   "/v1/device/household/storage/detail → code=1 | invalid signature"
                   None))
  /\ (forall items,
        net env n = Body (PDict items) ->
        is_success (code_of items) = true ->
        Py.lookup (KStr "data") items = Some (PDict []) ->
        fst (test_connection env w) = Ok (PDict [])).
Proof.
  intros n req. subst n req. rewrite test_connection_run, _post_run.
  cbn [fst snd after_send sent].
  split; [done |]. split; [done |]. split; [done |].
  split; [| split; [| split]].
  - intros e He. rewrite He. split; [done |].
    apply call_result_api_error in He.
    unfold is_api_error in He. by destruct (exn_class e).
  - by intros items ->.
  - intros items -> Hcode Hinfo. simpl. unfold is_success, rejection.
    rewrite Hcode, Hinfo. reflexivity.
  - intros items -> Hs Hd. simpl. rewrite Hs. simpl. by rewrite Hd.
Qed.

(** ** Signature and digest *)

Lemma decode_encode s : decode (encode s) = s.
Proof. apply string_of_list_byte_of_string. Qed.

Lemma le_bytes_length n z : length (le_bytes n z) = n.
Proof. revert z. induction n; intros z; simpl; [done | by rewrite IHn]. Qed.

Lemma md5_length msg : length (Hashlib.md5 msg) = 16%nat.
Proof.
  unfold Hashlib.md5. destruct (fold_left _ _ _).
  rewrite !length_app, !le_bytes_length. done.
Qed.

Lemma hex_length bs : String.length (Hashlib.hex bs) = (2 * length bs)%nat.
Proof. induction bs; simpl; [done | rewrite IHbs; lia]. Qed.

Lemma b64_length_16 bs :
  length bs = 16%nat -> String.length (Base64.b64chars bs) = 24%nat.
Proof.
  intros H. do 17 (destruct bs as [| ? bs]; try done).
Qed.

Lemma _md5_length body : String.length (_md5 body) = 24%nat.
Proof.
  unfold _md5, Base64.b64encode. rewrite decode_encode.
  apply b64_length_16, md5_length.
Qed.

(** C2.  The signature is the base64 text of the raw HMAC-SHA1, keyed by the
    secret, of the five fields joined by newline in the order method, digest,
    content type, timestamp, path.  It depends on the client through the
    secret alone, and it is what the Authorization header carries, computed
    for POST, the digest of the body, application/json, the date and the
    path. *)
Theorem sign_is_hmac_of_joined_fields me method md5 content_type date path :
  _sign me method md5 content_type date path
  = signature_of (api_secret me) method md5 content_type date path
  /\ signing_string method md5 content_type date path
     = method +:+ Text.LF +:+ md5 +:+ Text.LF +:+ content_type +:+ Text.LF
         +:+ date +:+ Text.LF +:+ path
  /\ (forall other,
        api_secret other = api_secret me ->
        _sign other method md5 content_type date path
        = _sign me method md5 content_type date path)
  /\ (forall now body_str,
        _headers me now path body_str !! "Authorization"
        = Some ("API " +:+ api_id me +:+ ":"
                  +:+ signature_of (api_secret me) "POST" (_md5 body_str)
                        "application/json" (_gmt_time now) path)).
Proof.
  split; [reflexivity |]. split; [reflexivity |]. split.
  - intros other Hsecret. unfold _sign. by rewrite Hsecret.
  - intros now body_str. unfold _headers.
    by rewrite !lookup_insert_ne, lookup_singleton_eq.
Qed.

(** C6, as amended.  The Content-MD5 header of the request is the base64 text
    of the raw MD5 digest of the body in its compact serialization, the very
    text that is sent; it has the 24 characters of 16 encoded bytes and is not
    the hexadecimal form.  Bodies with the same serialized bytes have the same
    digest, and the digest depends on nothing but the body: neither on the
    client, the clock or the path, nor on how the structure was written
    down. *)
Theorem digest_is_base64_md5_of_canonical_body env w path body :
  let req := request_of env w path body in
  sent (snd (_post env path body w)) = sent w ++ [req]
  /\ req_data req = canonical body
  /\ req_headers req !! "Content-MD5" = Some (content_digest body)
  /\ String.length (content_digest body) = 24%nat
  /\ content_digest body
     <> Hashlib.hex (Hashlib.md5 (encode (canonical body)))
  /\ (forall body',
        canonical body' = canonical body ->
        content_digest body' = content_digest body)
  /\ (forall env' w' path',
        req_headers (request_of env' w' path' body) !! "Content-MD5"
        = req_headers req !! "Content-MD5").
Proof.
  intros req. subst req. rewrite _post_run. cbn [snd after_send sent].
  assert (forall env' w' path',
            req_headers (request_of env' w' path' body) !! "Content-MD5"
            = Some (content_digest body)) as Hheader.
  { intros env' w' path'. unfold request_of, request_at, _headers.
    cbn [req_headers].
    by rewrite lookup_insert_ne, lookup_insert_eq. }
  split; [done |]. split; [done |]. split; [apply Hheader |].
  split; [apply _md5_length |]. split; [| split].
  - intros Heq. apply (f_equal String.length) in Heq.
    change (content_digest body) with (_md5 (canonical body)) in Heq.
    rewrite _md5_length, hex_length, md5_length in Heq. done.
  - intros body' Heq. unfold content_digest. by rewrite Heq.
  - intros env' w' path'. by rewrite !Hheader.
Qed.

(** *** Digests that coincide *)

Lemma utf8_points_low a r :
  a < 192 -> Text.utf8_points (a :: r) = a :: Text.utf8_points r.
Proof.
  intros Ha.
  assert ((192 <=? a) = false) as H1 by lia.
  assert ((224 <=? a) = false) as H2 by lia.
  assert ((240 <=? a) = false) as H3 by lia.
  destruct r as [| b [| c [| d r]]]; cbn [Text.utf8_points];
    rewrite ?H1, ?H2, ?H3; reflexivity.
Qed.

Lemma json_string_bit_serial bits :
  Text.json_string (bit_serial bits)
  = String (Text.chr 34) (bit_serial bits +:+ Text.str1 (Text.chr 34)).
Proof.
  unfold Text.json_string, Text.codes.
  change (Text.str1 (Text.chr 34) +:+ ?x) with (String (Text.chr 34) x).
  f_equal. f_equal.
  induction bits as [| b bits IH]; [reflexivity |].
  cbn [bit_serial list_ascii_of_string map].
  rewrite utf8_points_low by (by destruct b).
  cbn [map]. 
  transitivity (Text.json_escape_point (Text.ord (bit_char b))
                  +:+ String.concat "" (map Text.json_escape_point
                        (Text.utf8_points
                           (map Text.ord
                              (list_ascii_of_string (bit_serial bits)))))).
  - destruct bits as [| b' bits]; [by destruct b |].
    cbn [bit_serial list_ascii_of_string map].
    rewrite utf8_points_low by (by destruct b').
    reflexivity.
  - rewrite IH. by destruct b.
Qed.

Lemma append_assoc (s1 s2 s3 : string) :
  (s1 +:+ s2) +:+ s3 = s1 +:+ (s2 +:+ s3).
Proof.
  induction s1 as [| c s1 IH]; [reflexivity |].
  change (String c ((s1 +:+ s2) +:+ s3) = String c (s1 +:+ (s2 +:+ s3))).
  by rewrite IH.
Qed.

Lemma bit_serial_inj bits bits' tail tail' :
  bit_serial bits +:+ String (Text.chr 34) tail
  = bit_serial bits' +:+ String (Text.chr 34) tail' ->
  bits = bits'.
Proof.
  revert bits'. induction bits as [| b bits IH]; intros [| b' bits']; simpl.
  - done.
  - by destruct b'.
  - by destruct b.
  - intros [= Hb Hrest]. f_equal; [by destruct b, b' | by apply IH].
Qed.

Lemma canonical_bit_serial_inj bits bits' :
  canonical (device_body (bit_serial bits))
  = canonical (device_body (bit_serial bits')) ->
  bits = bits'.
Proof.
  unfold canonical, device_body. cbn [Json.dumps_with map Json.key_text].
  rewrite !json_string_bit_serial.
  intros H. vm_compute (Text.json_string "deviceSn") in H.
  cbn [Text.join String.concat String.append] in H.
  injection H as H. rewrite !append_assoc in H.
  apply (bit_serial_inj bits bits' "}" "}"). exact H.
Qed.


Lemma to_bits_inj : Inj (=) (=) Byte.to_bits.
Proof.
  intros a b H. rewrite <- (Byte.of_bits_to_bits a), H.
  apply Byte.of_bits_to_bits.
Qed.

Lemma bits8_card : card bits8 = (2 ^ 8)%nat.
Proof. unfold bits8. rewrite !prod_card, bool_card. reflexivity. Qed.

(** No function from 129 bits to 16 bytes is injective, so two request bodies
    that differ in their bytes have the same digest. *)
Lemma digest_not_injective_on_bodies :
  ~ (forall sn sn',
        content_digest (device_body sn) = content_digest (device_body sn') ->
        canonical (device_body sn) = canonical (device_body sn')).
Proof.
  intros Hclaim.
  pose (digest_bits := fun v : vec bool 129 =>
          map Byte.to_bits
            (Hashlib.md5 (encode (canonical (device_body (bit_serial v)))))).
  assert (forall v, length (digest_bits v) = 16%nat) as Hlen.
  { intros v. unfold digest_bits. by rewrite length_map, md5_length. }
  pose (g := fun v : vec bool 129 =>
          (digest_bits v ↾ Hlen v : { l : list bits8 | length l = 16%nat })).
  assert (Inj (=) (=) g) as Hinj.
  { intros v v' Heq. apply (f_equal proj1_sig) in Heq.
    cbn [g proj1_sig] in Heq. unfold digest_bits in Heq.
    pose proof to_bits_inj.
    apply (inj (map Byte.to_bits)) in Heq.
    apply vec_to_list_inj2, canonical_bit_serial_inj, Hclaim.
    unfold content_digest. by rewrite Heq. }
  pose proof (inj_card g) as Hcard.
  rewrite vec_card, list_card, bool_card, bits8_card in Hcard.
  rewrite <- Nat.pow_mul_r in Hcard.
  apply Nat.le_ngt in Hcard. apply Hcard.
  apply Nat.pow_lt_mono_r; [lia |].
  change (8 * 16 < 129)%nat. lia.
Qed.

(** C6, the converse that fails.  Two different texts of 72 bytes have one
    digest; and among request bodies, equal digests do not force equal
    serialized bytes. *)
Lemma md5_digest_collision :
  (collision_a <> collision_b /\ _md5 collision_a = _md5 collision_b)
  /\ ~ (forall body body',
          content_digest body = content_digest body'
          <-> canonical body = canonical body').
Proof.
  split; [split; [done | by vm_compute] |].
  intros Hiff. apply digest_not_injective_on_bodies.
  intros sn sn'. apply Hiff.
Qed.

(** ** Region and base URL *)

Lemma get_all_data_base_url env w :
  base_url (self (snd (get_all_data env w))) = base_url (self w).
Proof.
  destruct (get_all_data_spec env w) as (w' & Heq & Hm & _).
  rewrite Heq. cbn [snd]. by rewrite Hm.
Qed.

Lemma poll_base_url env cycles w :
  base_url (self (poll env cycles w)) = base_url (self w).
Proof.
  revert w. induction cycles as [| k IH]; intros w; simpl; [done |].
  by rewrite IH, update_data_is_get_all_data, get_all_data_base_url.
Qed.

(** C10.  The client that entry setup builds is given no region: its base URL
    is the global one whatever region the entry stores, and polling never
    changes it.  Setup succeeds as soon as the entry has its four credentials.
    The client of the validation step is built with the region of the form
    input, so for apac it talks to the other host. *)
Theorem setup_entry_ignores_region entry_data :
  (forall c, async_setup_entry entry_data = Ok c ->
     base_url (api c) = URL_global
     /\ forall env cycles sent0 logged0,
          base_url (self (poll env cycles
                            {| self := api c; sent := sent0;
                               logged := logged0 |})) = URL_global)
  /\ (forall region,
        async_setup_entry (<["region" := region]> entry_data)
        = async_setup_entry (delete "region" entry_data))
  /\ (is_Some (entry_data !! "api_id") ->
      is_Some (entry_data !! "api_secret") ->
      is_Some (entry_data !! "sn_bms") ->
      is_Some (entry_data !! "sn_dongle") ->
      is_ok (async_setup_entry entry_data))
  /\ (forall a, validate_input_api entry_data = Ok a ->
        base_url a
        = default URL_global
            (BASE_URLS !! default "global" (entry_data !! "region")))
  /\ (forall a, validate_input_api entry_data = Ok a ->
        entry_data !! "region" = Some "apac" ->
        base_url a = URL_apac /\ base_url a <> URL_global).
Proof.
  split; [| split; [| split; [| split]]].
  - intros c Hc. unfold async_setup_entry in Hc.
    destruct (entry_item entry_data "api_id"); [| done].
    destruct (entry_item entry_data "api_secret"); [| done].
    destruct (entry_item entry_data "sn_bms"); [| done].
    destruct (entry_item entry_data "sn_dongle"); [| done].
    injection Hc as <-. split; [by vm_compute |].
    intros env cycles sent0 logged0. rewrite poll_base_url. by vm_compute.
  - intros region. unfold async_setup_entry, entry_item.
    by rewrite !lookup_insert_ne, !lookup_delete_ne.
  - intros [a Ha] [b Hb] [c Hc] [d Hd]. unfold async_setup_entry, entry_item.
    by rewrite Ha, Hb, Hc, Hd.
  - intros a Ha. unfold validate_input_api in Ha.
    destruct (entry_item entry_data "api_id"); [| done].
    destruct (entry_item entry_data "api_secret"); [| done].
    destruct (entry_item entry_data "sn_bms"); [| done].
    destruct (entry_item entry_data "sn_dongle"); [| done].
    by injection Ha as <-.
  - intros a Ha Hregion. unfold validate_input_api in Ha.
    destruct (entry_item entry_data "api_id"); [| done].
    destruct (entry_item entry_data "api_secret"); [| done].
    destruct (entry_item entry_data "sn_bms"); [| done].
    destruct (entry_item entry_data "sn_dongle"); [| done].
    injection Ha as <-. rewrite Hregion. by vm_compute.
Qed.

(** ** The theorems at concrete inputs *)

(** The scenario of the specification: device detail succeeds, the three
    other calls fail in the transport. *)
Lemma get_all_data_isolates_failures_witness :
  exists snap,
    fst (get_all_data env_device_only demo_world) = Ok snap
    /\ dom snap = section_keys
    /\ snap !! "power" = Some (PDict [])
    /\ snap !! "bms" = Some (PDict [])
    /\ snap !! "dongle" = Some (PDict [])
    /\ length (sent (snd (get_all_data env_device_only demo_world))) = 4%nat.
Proof.
  pose proof (get_all_data_isolates_failures env_device_only demo_world) as H.
  cbv zeta in H. destruct H as (_ & Hsnap & Hret).
  assert (is_ok (fst (get_all_data env_device_only demo_world))) as Hok
    by (apply Hret; reflexivity).
  destruct (fst (get_all_data env_device_only demo_world)) as [snap |];
    [| destruct Hok].
  destruct (Hsnap snap eq_refl) as (Hdom & Hsent & _ & Hp & Hb & Hg).
  exists snap. split; [reflexivity |]. split; [exact Hdom |].
  split; [apply Hp; vm_compute; tauto |].
  split; [apply Hb; vm_compute; tauto |].
  split; [apply Hg; vm_compute; tauto |].
  rewrite Hsent. reflexivity.
Defined.

(** C1, the claim as first stated, fails: every call of this cycle succeeds or
    fails with an API error, and the cycle raises a KeyError. *)
Lemma get_all_data_raises_on_bad_point :
  (forall k path,
      match call_result path (net env_bad_point k) with
      | Ok _ => True
      | Raise e => is_api_error e = true
      end)
  /\ fst (get_all_data env_bad_point demo_world)
     = Raise (Exn KeyError "'pointId'" None)
  /\ ~ (forall env w, exists snap, fst (get_all_data env w) = Ok snap).
Proof.
  split; [| split].
  - intros k path.
    destruct (call_result path (net env_bad_point k)) eqn:H; [done |].
    eauto using call_result_api_error.
  - by vm_compute.
  - intros H. destruct (H env_bad_point demo_world) as (snap & Hsnap).
    by vm_compute in Hsnap.
Qed.

(** Two clients that share a secret sign alike. *)
Lemma sign_is_hmac_of_joined_fields_witness :
  let other :=
    __init__ "other-id" "demo-secret" "X-BMS" "X-DL" (Some "M1")
      (Some "apac") in
  api_secret other = api_secret demo_client
  /\ _sign other "POST" (_md5 "{}") "application/json" (_gmt_time 0) "/p"
     = _sign demo_client "POST" (_md5 "{}") "application/json" (_gmt_time 0)
         "/p".
Proof.
  cbv zeta. split; [reflexivity |].
  apply (proj1 (proj2 (proj2 (sign_is_hmac_of_joined_fields demo_client
           "POST" (_md5 "{}") "application/json" (_gmt_time 0) "/p")))).
  reflexivity.
Defined.

(** The number 200 is an accepted code. *)
Lemma post_classifies_by_code_witness :
  net env_full 0 = Body (envelope (PDict [(KStr "deviceName", PStr "Tower")]))
  /\ fst (_post env_full path_detail (device_body "R07E-BMS") demo_world)
     = Ok (envelope (PDict [(KStr "deviceName", PStr "Tower")])).
Proof.
  split; [reflexivity |].
  apply (proj1 (post_classifies_by_code env_full demo_world path_detail
                  (device_body "R07E-BMS") _ eq_refl)).
  split; [reflexivity |]. eexists. split; [reflexivity |].
  right. reflexivity.
Defined.

(** The history null, 5, null: the entry with 5 is the power section. *)
Lemma power_is_latest_usable_entry_witness :
  call_at env_full demo_world 1 path_power
  = Ok (envelope (PList history_example))
  /\ history_ok (PList history_example) = true
  /\ exists snap,
       fst (get_all_data env_full demo_world) = Ok snap
       /\ snap !! "power" = Some (power_entry (PInt 5)).
Proof.
  split; [reflexivity |]. split; [reflexivity |].
  destruct (power_is_latest_usable_entry env_full demo_world
              (envelope (PList history_example)) eq_refl)
    as (_ & Hret & _ & Hfive).
  assert (is_ok (fst (get_all_data env_full demo_world))) as Hok
    by (apply Hret; reflexivity).
  destruct (fst (get_all_data env_full demo_world)) as [snap |];
    [| destruct Hok].
  exists snap. split; [reflexivity |]. by apply Hfive.
Defined.

(** Discovery from " ABC123 , DEF456", and a second cycle that offers another
    serial to a client that has one. *)
Lemma module_serial_write_once_witness :
  sn_module (self demo_world) = ""
  /\ sn_module (self (snd (get_all_data env_full demo_world))) = "ABC123"
  /\ sn_module (self discovered_world) <> ""
  /\ sn_module (self (snd (get_all_data env_other_sub discovered_world)))
     = "ABC123"
  /\ sn_module (self (poll env_other_sub 3 discovered_world)) = "ABC123".
Proof.
  split; [reflexivity |].
  destruct (module_serial_write_once env_full demo_world)
    as (_ & _ & Hfirst & Htoken).
  split.
  { rewrite <- Htoken.
    apply (Hfirst (envelope (PList [point "SOC" (PStr "87");
                                    point "SUB" (PStr " ABC123 , DEF456")]))
             [(KStr "SOC", PStr "87");
              (KStr "SUB", PStr " ABC123 , DEF456")]);
      reflexivity. }
  assert (sn_module (self discovered_world) <> "") as Hset by done.
  split; [exact Hset |].
  destruct (module_serial_write_once env_other_sub discovered_world)
    as (Hkeep & _).
  destruct (Hkeep Hset) as (Hone & Hmany).
  split; [exact Hone | exact (Hmany 3%nat)].
Defined.

(** Two different structures with the same serialized bytes. *)
Lemma digest_is_base64_md5_of_canonical_body_witness :
  let body := PDict [(KStr "1", PNone)] in
  let body' := PDict [(KInt 1, PNone)] in
  body' <> body
  /\ canonical body' = canonical body
  /\ content_digest body' = content_digest body.
Proof.
  cbv zeta. split; [done |]. split; [reflexivity |].
  apply (digest_is_base64_md5_of_canonical_body env_full demo_world path_detail
           (PDict [(KStr "1", PNone)])).
  reflexivity.
Defined.

(** A timeout reaches the caller as an API error that wraps it. *)
Lemma post_wraps_transport_faults_witness :
  net env_device_only 1 = Fault (Timeout "")
  /\ fst (_post env_device_only path_power (device_body "R07E-BMS")
            {| self := demo_client;
               sent := [request_at env_device_only demo_client 0 path_detail
                          (device_body "R07E-BMS")];
               logged := [] |})
     = Raise (Exn DynessAPIError
                "Request to /v1/device/getLastPowerDataBySn failed: "
                (Some (Exn TimeoutError "" None))).
Proof.
  split; [reflexivity |].
  apply (proj1 (post_wraps_transport_faults env_device_only _ path_power
                  (device_body "R07E-BMS")) (Timeout "")).
  reflexivity.
Defined.

(** Code 1 with the message invalid signature. *)
Lemma test_connection_surfaces_failure_witness :
  net env_rejected 0
  = Body (PDict [(KStr "code", PStr "1");
                 (KStr "info", PStr "invalid signature")])
  /\ fst (test_connection env_rejected demo_world)
     = Raise (Exn DynessAPIError
                "/v1/device/household/storage/detail → code=1 | invalid signature"
                None)
  /\ fst (test_connection env_rejected demo_world) <> Ok (PDict [])
  /\ (forall text cause,
        fst (test_connection env_rejected demo_world)
        = Raise (Exn DynessAPIError text cause) ->
        Text.is_infix "code=1" text = true
        /\ Text.is_infix "invalid signature" text = true).
Proof.
  split; [reflexivity |].
  pose proof (test_connection_surfaces_failure env_rejected demo_world) as H.
  cbv zeta in H. destruct H as (_ & _ & _ & _ & _ & Hrej & _).
  rewrite (Hrej _ eq_refl eq_refl eq_refl).
  split; [reflexivity |]. split; [done |].
  intros text cause [= <- _]. split; reflexivity.
Defined.

(** A point record without pointId, and a SUB value that is a number. *)
Lemma malformed_payload_escapes_witness :
  fst (get_all_data env_bad_point demo_world)
  = Raise (Exn KeyError "'pointId'" None)
  /\ fst (_async_update_data env_bad_point demo_world)
     = Raise (Exn KeyError "'pointId'" None)
  /\ fst (get_all_data env_sub_number demo_world)
     = Raise (Exn AttributeError "'int' object has no attribute 'split'" None).
Proof.
  destruct (malformed_payload_escapes env_bad_point demo_world)
    as (Hsame & _ & _ & Hkey & _).
  destruct (malformed_payload_escapes env_sub_number demo_world)
    as (_ & _ & _ & _ & Hsub).
  assert (fst (get_all_data env_bad_point demo_world)
          = Raise (Exn KeyError "'pointId'" None)) as Hraise.
  { apply (Hkey (envelope (PList [PDict []])) [PDict []] [] [] []);
      reflexivity. }
  split; [exact Hraise |]. split; [by rewrite Hsame |].
  apply (Hsub (envelope (PList [point "SUB" (PInt 7)]))
           [(KStr "SUB", PInt 7)] (PInt 7)); reflexivity.
Defined.

(** An entry configured for apac: setup builds a client for the global host,
    validation one for the apac host. *)
Lemma setup_entry_ignores_region_witness :
  exists c a,
    async_setup_entry (demo_entry "apac") = Ok c
    /\ validate_input_api (demo_entry "apac") = Ok a
    /\ base_url (api c) = URL_global
    /\ base_url a = URL_apac.
Proof.
  destruct (setup_entry_ignores_region (demo_entry "apac"))
    as (Hsetup & _ & _ & _ & Hvalidate).
  eexists. eexists.
  split; [by vm_compute |]. split; [by vm_compute |].
  split.
  - apply (Hsetup _). by vm_compute.
  - apply (Hvalidate _); by vm_compute.
Defined.
